(** * Gold-telegram-bot: the snapshot builder and formatter of [data_sources.py]

    A shallow embedding of the numeric reductions ([_latest_price],
    [_pct_change_over_hours], [_last_hour_volume_sum]), of the snapshot
    builder [get_gold_snapshot] and of the renderer [format_snapshot],
    followed by the properties the specification states about them.

    Number model.  A Python [float] is either the marker [float("nan")] or a
    finite value; finite values are carried as canonical rationals, so that
    arithmetic is exact and equality is Leibniz equality.  Rounding is not
    part of this model; module [Binary64] gives the percentage change once
    more on IEEE binary64 numbers, where the arithmetic rounds.

    Time model.  A [pd.Timestamp] of a UTC-normalised index is the integer
    count of nanoseconds since the epoch.

    Frames.  A frame is a list of samples with the names of its columns.
    The provider either raises or returns a frame of floats under a
    datetime index; where the program slices the index by label
    ([.loc[:cutoff]]) the frame is taken with an increasing index, as the
    provider delivers it.

    Exceptions.  The reductions are given twice: as total functions, which
    say what is computed on a frame as the provider delivers it, and, with
    the suffix [_run], with the exceptions pandas raises on the way: a
    timestamp or a duration outside its 64-bit range, and a label slice on
    an index that is not monotonic.  The two agree on well-formed frames. *)

From Stdlib Require Import ZArith QArith Qabs Qcanon List String Ascii Bool Lia.
From Stdlib Require Import DecimalString Sorting.Sorted Floats.
From Stdlib Require Import Sorting.Permutation.
From Stdlib Require DecimalPos DecimalZ.
From Stdlib Require Import Lqa.
Import ListNotations.

Open Scope string_scope.
Open Scope Z_scope.

(** ** Floats *)

Inductive pyfloat : Type :=
| NaN
| Num (q : Qc).

Definition F (z : Z) : pyfloat := Num (Q2Qc (inject_Z z)).

(** [pd.isna] on a float. *)
Definition isna (x : pyfloat) : bool :=
  match x with NaN => true | Num _ => false end.

(** [x == y] on floats: false as soon as one side is NaN. *)
Definition feqb (x y : pyfloat) : bool :=
  match x, y with
  | Num a, Num b => Qc_eq_bool a b
  | _, _ => false
  end.

Definition fadd (x y : pyfloat) : pyfloat :=
  match x, y with Num a, Num b => Num (a + b)%Qc | _, _ => NaN end.

Definition fsub (x y : pyfloat) : pyfloat :=
  match x, y with Num a, Num b => Num (a - b)%Qc | _, _ => NaN end.

Definition fmul (x y : pyfloat) : pyfloat :=
  match x, y with Num a, Num b => Num (a * b)%Qc | _, _ => NaN end.

(** [x / y]; Python raises on a zero divisor, and the only division of the
    program is guarded by [base == 0], so the value chosen there is never
    observed. *)
Definition fdiv (x y : pyfloat) : pyfloat :=
  match x, y with Num a, Num b => Num (a / b)%Qc | _, _ => NaN end.

(** ** Frames *)

Definition Timestamp := Z.

(** [pd.Timedelta(hours=h)] in nanoseconds. *)
Definition Timedelta_hours (h : Z) : Z := h * 3600000000000.
Definition Timedelta_minutes (m : Z) : Z := m * 60000000000.

(** One sample of a price/volume history.  The cells of a column that the
    frame does not carry are never read. *)
Record Row : Type := mkRow {
  time : Timestamp;
  Close : pyfloat;
  Volume : pyfloat
}.

Record DataFrame : Type := mkDataFrame {
  columns : list string;
  rows : list Row
}.

(** [pd.DataFrame()] *)
Definition DataFrame_new : DataFrame := mkDataFrame [] [].

(** [df.empty]: some axis has length zero. *)
Definition empty (df : DataFrame) : bool :=
  (Nat.eqb (List.length (rows df)) 0) || (Nat.eqb (List.length (columns df)) 0).

(** [name in df.columns] *)
Definition has_column (name : string) (df : DataFrame) : bool :=
  existsb (String.eqb name) (columns df).

(** A [pd.Series]: index labels with their values. *)
Definition Series := list (Timestamp * pyfloat).

Definition col_Close (df : DataFrame) : Series :=
  map (fun r => (time r, Close r)) (rows df).

(** [s.dropna()] *)
Definition dropna (s : Series) : Series :=
  filter (fun p => negb (isna (snd p))) s.

(** [s.loc[:label]] on an increasing index: the entries labelled at or
    before [label]. *)
Definition loc_upto (s : Series) (label : Timestamp) : Series :=
  filter (fun p => fst p <=? label) s.

(** [s.fillna(0)] on one cell. *)
Definition fillna0 (x : pyfloat) : pyfloat :=
  match x with NaN => F 0 | Num _ => x end.

(** [s.sum()] *)
Definition fsum (l : list pyfloat) : pyfloat := fold_left fadd l (F 0).

(** ** The reductions of [data_sources.py] *)

Definition _pct_change_over_hours (df : DataFrame) (hours : Z) : pyfloat :=
  if empty df || negb (has_column "Close" df) then NaN
  else
    let closes := dropna (col_Close df) in
    match closes with
    | [] => NaN
    | first :: _ =>
        let last_time := fst (List.last closes first) in
        let last := snd (List.last closes first) in
        let cutoff_time := last_time - Timedelta_hours hours in
        let past_series := loc_upto closes cutoff_time in
        let base :=
          match past_series with
          | [] => snd first
          | p :: _ => snd (List.last past_series p)
          end in
        if feqb base (F 0) || isna base then NaN
        else fmul (fdiv (fsub last base) base) (F 100)
    end.

Definition _last_hour_volume_sum (df : DataFrame) (now_utc : Timestamp) : pyfloat :=
  if empty df || negb (has_column "Volume" df) then F 0
  else
    let one_hour_ago := now_utc - Timedelta_hours 1 in
    let mask := fun r => (one_hour_ago <? time r) && (time r <=? now_utc) in
    fsum (map fillna0 (map Volume (filter mask (rows df)))).

Definition _latest_price (df : DataFrame) : pyfloat :=
  if empty df || negb (has_column "Close" df) then NaN
  else
    let closes := dropna (col_Close df) in
    match closes with
    | [] => NaN
    | first :: _ => snd (List.last closes first)
    end.

(** ** Exceptions *)

Inductive exn : Type := TypeError | ValueError | KeyError.

Inductive Outcome (A : Type) : Type :=
| Ok (a : A)
| Raise (e : exn).
Arguments Ok {A} a.
Arguments Raise {A} e.

Definition bind {A B : Type} (m : Outcome A) (k : A -> Outcome B) : Outcome B :=
  match m with Ok a => k a | Raise e => Raise e end.

Notation "x <- m ;; k" := (bind m (fun x => k))
  (at level 61, m at next level, right associativity).

(** ** Python values held by a snapshot *)

#[warnings="-register-all"]
Inductive pyval : Type :=
| VNone
| VFloat (x : pyfloat)
| VStr (s : string)
| VStrList (l : list string)
| VDict (d : list (string * pyval)).

Fixpoint lookup (k : string) (d : list (string * pyval)) : option pyval :=
  match d with
  | [] => None
  | (k', v) :: d' => if String.eqb k k' then Some v else lookup k d'
  end.

(** [v[k]] for a string key [k]. *)
Definition getitem (v : pyval) (k : string) : Outcome pyval :=
  match v with
  | VDict d => match lookup k d with Some x => Ok x | None => Raise KeyError end
  | _ => Raise TypeError
  end.

(** ** The provider and the clock *)

(** What [yf.Ticker(t).history(...)] does on one request: it raises, or it
    returns a frame.  Line 40 to 44 of [_safe_history] bring the index of a
    returned frame to UTC, which leaves every instant where it is; the rows
    of [Returned] carry those instants. *)
Inductive Response : Type :=
| Raised
| Returned (df : DataFrame).

(** The outside world of one build.  Requests are numbered in program order,
    so that two requests with the same arguments may be answered differently. *)
Record World : Type := mkWorld {
  local_clock : string;
  utc_clock : nat -> Z;
  yf_history : nat -> string -> string -> string -> Response
}.

Definition _safe_history (w : World) (n : nat) (ticker period interval : string)
  : DataFrame :=
  match yf_history w n ticker period interval with
  | Returned df => df
  | Raised => DataFrame_new
  end.

(** A scalar [pd.Timestamp]: an instant and, when aware, its zone. *)
Record PdTimestamp : Type := mkTs {
  value : Z;
  tz : option string
}.

(** [pd.Timestamp.utcnow()] is [Timestamp.now("UTC")]: aware, in UTC. *)
Definition Timestamp_utcnow (w : World) (k : nat) : PdTimestamp :=
  mkTs (utc_clock w k) (Some "UTC").

(** [ts.tz_localize("UTC")]: a naive timestamp is read as UTC wall time; an
    aware one is refused ("Cannot localize tz-aware Timestamp, use tz_convert
    for conversions"). *)
Definition tz_localize_UTC (ts : PdTimestamp) : Outcome PdTimestamp :=
  match tz ts with
  | None => Ok (mkTs (value ts) (Some "UTC"))
  | Some _ => Raise TypeError
  end.

(** [_now_tz().strftime("%Y-%m-%d %H:%M:%S %Z")] *)
Definition _now_tz_text (w : World) : string := local_clock w.

(** ** The builder *)

Definition TICKERS_spot : string := "XAUUSD=X".
Definition TICKERS_etf : string := "GLD".
Definition TICKERS_futures : list string := ["GC=F"; "MGC=F"].

(** The frames one build retrieves (lines 98 to 105 and 110). *)
Record Frames : Type := mkFrames {
  spot_1h : DataFrame;
  etf_1h : DataFrame;
  fut_main_1h : DataFrame;
  spot_1m : DataFrame;
  etf_1m : DataFrame;
  fut_1m_list : list DataFrame;
  fut_main_1m : DataFrame
}.

Definition enumerate_from {A : Type} (n : nat) (l : list A) : list (nat * A) :=
  combine (seq n (List.length l)) l.

Definition retrieve (w : World) : Frames :=
  let main := hd EmptyString TICKERS_futures in
  {| spot_1h := _safe_history w 0 TICKERS_spot "3d" "1h";
     etf_1h := _safe_history w 1 TICKERS_etf "5d" "1h";
     fut_main_1h := _safe_history w 2 main "5d" "1h";
     spot_1m := _safe_history w 3 TICKERS_spot "90m" "1m";
     etf_1m := _safe_history w 4 TICKERS_etf "90m" "1m";
     fut_1m_list :=
       map (fun nt => _safe_history w (fst nt) (snd nt) "90m" "1m")
           (enumerate_from 5 TICKERS_futures);
     fut_main_1m := _safe_history w 7 main "90m" "1m" |}.

(** Python's [sum] over floats, starting from [0]. *)
Definition py_sum (l : list pyfloat) : pyfloat := fold_left fadd l (F 0).

(** Lines 107 to 115 and 119 to 145: the record computed from the retrieved
    frames, the local time text and the reference instant [now_utc_ts]. *)
Definition snapshot_record (now_local : string) (now_utc_ts : Timestamp)
    (fr : Frames) : pyval :=
  let spot_price :=
    _latest_price (if negb (empty (spot_1m fr)) then spot_1m fr else spot_1h fr) in
  let etf_price :=
    _latest_price (if negb (empty (etf_1m fr)) then etf_1m fr else etf_1h fr) in
  let futures_price :=
    _latest_price
      (if negb (empty (fut_main_1m fr)) then fut_main_1m fr else fut_main_1h fr) in
  let spot_change := _pct_change_over_hours (spot_1h fr) 24 in
  let etf_change := _pct_change_over_hours (etf_1h fr) 24 in
  let futures_change := _pct_change_over_hours (fut_main_1h fr) 24 in
  let fut_volumes :=
    py_sum (map (fun df => _last_hour_volume_sum df now_utc_ts) (fut_1m_list fr)) in
  let etf_volume := _last_hour_volume_sum (etf_1m fr) now_utc_ts in
  let total_volume := fadd fut_volumes etf_volume in
  VDict [
    ("as_of_local", VStr now_local);
    ("spot", VDict [
       ("ticker", VStr TICKERS_spot);
       ("price", VFloat spot_price);
       ("change_24h_pct", VFloat spot_change)]);
    ("etf", VDict [
       ("ticker", VStr TICKERS_etf);
       ("price", VFloat etf_price);
       ("change_24h_pct", VFloat etf_change);
       ("last_hour_volume", VFloat etf_volume)]);
    ("futures", VDict [
       ("tickers", VStrList TICKERS_futures);
       ("price_main", VFloat futures_price);
       ("change_24h_pct", VFloat futures_change);
       ("last_hour_volume_sum", VFloat fut_volumes)]);
    ("totals", VDict [
       ("last_hour_volume_all", VFloat total_volume)])
  ].

(** [get_gold_snapshot()]: the clock is read on lines 94, 95 and 118, the
    provider is queried in between, and the record is returned. *)
Definition get_gold_snapshot (w : World) : Outcome pyval :=
  let now_local := _now_tz_text w in
  now_utc <- tz_localize_UTC (Timestamp_utcnow w 0) ;;
  let fr := retrieve w in
  now_utc_ts <- tz_localize_UTC (Timestamp_utcnow w 1) ;;
  Ok (snapshot_record now_local (value now_utc_ts) fr).

(** ** Rendering of numbers *)

Definition digits (n : Z) : string := NilZero.string_of_uint (N.to_uint (Z.to_N n)).

(** Thousands separators: a comma before every group of three digits that
    is not the first. *)
Fixpoint commas (s : string) : string :=
  match s with
  | EmptyString => EmptyString
  | String c rest =>
      let n := String.length rest in
      String c (if (Nat.ltb 0 n) && (Nat.eqb (Nat.modulo n 3) 0)
                then "," ++ commas rest else commas rest)
  end.

(** Rounding to the nearest integer, ties to the even one ([round(x)] and
    the rounding of the [f] presentation type). *)
Definition round_half_even (q : Q) : Z :=
  let d := Z.pos (Qden q) in
  let fl := Qnum q / d in
  let r := Qnum q mod d in
  match 2 * r ?= d with
  | Lt => fl
  | Gt => fl + 1
  | Eq => if Z.even fl then fl else fl + 1
  end.

(** [format(x, ".2f")] on a finite float, with the options [+] (sign always)
    and [,] (thousands separators). *)
Definition format_f2 (plus grouping : bool) (q : Qc) : string :=
  let c := round_half_even (Qabs (this q) * inject_Z 100)%Q in
  let ip := digits (c / 100) in
  let fp := c mod 100 in
  let sign := if Qnum (this q) <? 0 then "-" else if plus then "+" else EmptyString in
  sign ++ (if grouping then commas ip else ip) ++ "."
       ++ (if fp <? 10 then "0" else EmptyString) ++ digits fp.

(** [format(v, spec)] for the two [f] specs of the program. *)
Definition py_format_f2 (plus grouping : bool) (v : pyval) : Outcome string :=
  match v with
  | VFloat NaN => Ok (if plus then "+nan" else "nan")
  | VFloat (Num q) => Ok (format_f2 plus grouping q)
  | VStr _ => Raise ValueError
  | VNone | VStrList _ | VDict _ => Raise TypeError
  end.

(** [int(round(x))] *)
Definition py_int_round (v : pyval) : Outcome Z :=
  match v with
  | VFloat NaN => Raise ValueError
  | VFloat (Num q) => Ok (round_half_even (this q))
  | VNone | VStr _ | VStrList _ | VDict _ => Raise TypeError
  end.

(** [format(n, ",")] on an [int]. *)
Definition format_int_commas (n : Z) : string :=
  (if n <? 0 then "-" else EmptyString) ++ commas (digits (Z.abs n)).

Definition _fmt_money (x : pyval) : string :=
  match py_format_f2 false true x with
  | Ok s => s
  | Raise _ => "n/a"
  end.

Definition _fmt_int (x : pyval) : string :=
  match py_int_round x with
  | Ok n => format_int_commas n
  | Raise _ => "0"
  end.

(** The truth value of [pd.isna(p)] for [p] other than [None].  On a list
    the answer is an array, whose truth value is refused unless it has one
    element (an empty one is refused by recent NumPy, and is false before,
    where the format that follows raises). *)
Definition pd_isna_truth (p : pyval) : Outcome bool :=
  match p with
  | VNone => Ok true
  | VFloat x => Ok (isna x)
  | VStr _ => Ok false
  | VDict _ => Ok false
  | VStrList [_] => Ok false
  | VStrList _ => Raise ValueError
  end.

(** The local function [pct] of [format_snapshot]. *)
Definition pct (p : pyval) : Outcome string :=
  na <- match p with VNone => Ok true | _ => pd_isna_truth p end ;;
  if (na : bool) then Ok "n/a"
  else s <- py_format_f2 true false p ;; Ok (s ++ "%").

Fixpoint chars (s : string) : list string :=
  match s with
  | EmptyString => []
  | String c rest => String c EmptyString :: chars rest
  end.

(** Iteration over a value: a list yields its items, a string its
    characters, a dict its keys. *)
Definition py_iter (v : pyval) : Outcome (list string) :=
  match v with
  | VStrList l => Ok l
  | VStr s => Ok (chars s)
  | VDict d => Ok (map fst d)
  | VNone | VFloat _ => Raise TypeError
  end.

Definition nl : string := String (ascii_of_nat 10) EmptyString.

Section Formatter.

(** [str(v)] inside an f-string is [v] itself on a string; the printed
    form of any other object is Python's own and is left open. *)
Variable py_repr : pyval -> string.

Definition py_str (v : pyval) : string :=
  match v with
  | VStr s => s
  | _ => py_repr v
  end.

Definition format_snapshot (snapshot : pyval) : Outcome string :=
  let blank := EmptyString in
  let l1 := "📊 *Золото — сводка*" in
  as_of <- getitem snapshot "as_of_local" ;;
  let l2 := "⏱ Обновлено: " ++ py_str as_of in
  sp <- getitem snapshot "spot" ;;
  sp_ticker <- getitem sp "ticker" ;;
  let l4 := "🪙 *Spot (XAU/USD)* `" ++ py_str sp_ticker ++ "`" in
  sp_price <- getitem sp "price" ;;
  sp_change <- getitem sp "change_24h_pct" ;;
  sp_pct <- pct sp_change ;;
  let l5 := "  Цена: $" ++ _fmt_money sp_price ++ "  |  24ч: " ++ sp_pct in
  et <- getitem snapshot "etf" ;;
  et_ticker <- getitem et "ticker" ;;
  let l7 := "🏦 *Фондовый рынок (ETF)* `" ++ py_str et_ticker ++ "`" in
  et_price <- getitem et "price" ;;
  et_change <- getitem et "change_24h_pct" ;;
  et_pct <- pct et_change ;;
  let l8 := "  Цена: $" ++ _fmt_money et_price ++ "  |  24ч: " ++ et_pct in
  et_volume <- getitem et "last_hour_volume" ;;
  let l9 := "  Объём за последний час: " ++ _fmt_int et_volume in
  fu <- getitem snapshot "futures" ;;
  fu_tickers <- getitem fu "tickers" ;;
  ts <- py_iter fu_tickers ;;
  let tickers_str := String.concat ", " (map (fun t => "`" ++ t ++ "`") ts) in
  let l11 := "🛢 *Фьючерсы (COMEX)* " ++ tickers_str in
  fu_price <- getitem fu "price_main" ;;
  fu_change <- getitem fu "change_24h_pct" ;;
  fu_pct <- pct fu_change ;;
  let l12 := "  Цена (главный контракт): $" ++ _fmt_money fu_price
               ++ "  |  24ч: " ++ fu_pct in
  fu_volume <- getitem fu "last_hour_volume_sum" ;;
  let l13 := "  Суммарный объём фьючерсов за последний час: "
               ++ _fmt_int fu_volume in
  tot <- getitem snapshot "totals" ;;
  tot_volume <- getitem tot "last_hour_volume_all" ;;
  let l15 := "🧮 *Итого объём (ETF + фьючерсы) за последний час:* "
               ++ _fmt_int tot_volume in
  let l17 := "_Источник данных: Yahoo Finance (через yfinance). Объёмы спота обычно недоступны, поэтому в итог включены ETF и фьючерсы._" in
  Ok (String.concat nl
        [l1; l2; blank; l4; l5; blank; l7; l8; l9; blank; l11; l12; l13; blank;
         l15; blank; l17]).

End Formatter.

(** ** Vocabulary of the specification *)

Open Scope list_scope.

(** A sample counts for prices when its close is not missing. *)
Definition valid (r : Row) : bool := negb (isna (Close r)).

(** [c] is the close of the last sample of [df] that has one: every sample
    after it has a missing close. *)
Definition last_valid_close (df : DataFrame) (c : Qc) : Prop :=
  has_column "Close" df = true /\
  exists pre r post,
    rows df = pre ++ r :: post /\ Close r = Num c /\
    Forall (fun r' => Close r' = NaN) post.

(** [df] has no close at all: no such column, or every cell missing (an
    empty frame is both). *)
Definition no_valid_close (df : DataFrame) : Prop :=
  has_column "Close" df = false \/ Forall (fun r => Close r = NaN) (rows df).

(** The price one series stands for: its last valid close, or the marker. *)
Definition series_price (df : DataFrame) (p : pyfloat) : Prop :=
  (exists c, last_valid_close df c /\ p = Num c) \/ (no_valid_close df /\ p = NaN).

(** The latest price as the specification words it: the fine series decides
    when it has a valid close, the coarse one otherwise. *)
Definition price_fallback_on_no_valid_close (fine coarse : DataFrame) (p : pyfloat)
  : Prop :=
  (exists c, last_valid_close fine c /\ p = Num c) \/
  (no_valid_close fine /\ series_price coarse p).

(** The latest price as the builder gates it: the coarse series is consulted
    only when the fine frame is empty. *)
Definition price_fallback_on_empty (fine coarse : DataFrame) (p : pyfloat) : Prop :=
  (empty fine = false -> series_price fine p) /\
  (empty fine = true -> series_price coarse p).

(** A sample of [df] that carries a close. *)
Definition sample (df : DataFrame) (r : Row) : Prop :=
  has_column "Close" df = true /\ In r (rows df) /\ valid r = true.

(** The most recent, and the earliest, sample with a close. *)
Definition latest_sample (df : DataFrame) (r : Row) : Prop :=
  sample df r /\ forall r', sample df r' -> time r' <= time r.

Definition earliest_sample (df : DataFrame) (r : Row) : Prop :=
  sample df r /\ forall r', sample df r' -> time r <= time r'.

(** The most recent sample with a close at or before [cutoff]. *)
Definition latest_sample_upto (df : DataFrame) (cutoff : Timestamp) (r : Row)
  : Prop :=
  sample df r /\ time r <= cutoff /\
  forall r', sample df r' -> time r' <= cutoff -> time r' <= time r.

(** The base of a change: the most recent close at or before the cutoff,
    or the earliest close of the series when nothing lies that far back. *)
Definition base_sample (df : DataFrame) (cutoff : Timestamp) (r : Row) : Prop :=
  latest_sample_upto df cutoff r \/
  ((forall r', sample df r' -> cutoff < time r') /\ earliest_sample df r).

Definition hundred : Qc := Q2Qc (inject_Z 100).

(** The change over [hours] hours as the specification words it. *)
Inductive pct_change_spec (df : DataFrame) (hours : Z) : pyfloat -> Prop :=
| pct_no_close :
    (forall r, ~ sample df r) ->
    pct_change_spec df hours NaN
| pct_zero_base rl rb :
    latest_sample df rl ->
    base_sample df (time rl - Timedelta_hours hours) rb ->
    Close rb = F 0 ->
    pct_change_spec df hours NaN
| pct_value rl rb l b :
    latest_sample df rl ->
    base_sample df (time rl - Timedelta_hours hours) rb ->
    Close rl = Num l -> Close rb = Num b -> b <> 0%Qc ->
    pct_change_spec df hours (Num ((l - b) / b * hundred)%Qc).

(** When the change is unavailable, in the words of the specification. *)
Definition pct_unavailable (df : DataFrame) (hours : Z) : Prop :=
  (forall r, ~ sample df r) \/
  (exists rl rb, latest_sample df rl /\
                 base_sample df (time rl - Timedelta_hours hours) rb /\
                 Close rb = F 0).

(** The index of a frame increases strictly. *)
Definition increasing (df : DataFrame) : Prop :=
  StronglySorted Z.lt (map time (rows df)).

(** Every close of [df] multiplied by [k]. *)
Definition scale_row (k : Qc) (r : Row) : Row :=
  mkRow (time r) (fmul (Num k) (Close r)) (Volume r).

Definition scale_closes (k : Qc) (df : DataFrame) : DataFrame :=
  mkDataFrame (columns df) (map (scale_row k) (rows df)).

(** The trailing hour ending at [now]: after [now - 1h], up to [now]. *)
Definition in_last_hour (now : Timestamp) (r : Row) : Prop :=
  now - Timedelta_hours 1 < time r /\ time r <= now.

Definition in_last_hour_dec (now : Timestamp) (r : Row)
  : {in_last_hour now r} + {~ in_last_hour now r}.
Proof.
  unfold in_last_hour.
  destruct (Z_lt_dec (now - Timedelta_hours 1) (time r));
    destruct (Z_le_dec (time r) now); (left; tauto) || (right; tauto).
Defined.

(** The volume of a sample, a missing one counting for zero. *)
Definition volume_or_zero (df : DataFrame) (r : Row) : Qc :=
  if has_column "Volume" df
  then match Volume r with Num v => v | NaN => 0%Qc end
  else 0%Qc.

(** What one sample adds to the trailing-hour volume. *)
Definition contribution (df : DataFrame) (now : Timestamp) (r : Row) : Qc :=
  if in_last_hour_dec now r then volume_or_zero df r else 0%Qc.

(** The sum of the volumes of the samples of the trailing hour. *)
Definition trailing_hour_volume (df : DataFrame) (now : Timestamp) : Qc :=
  fold_right (fun r acc => (contribution df now r + acc)%Qc) 0%Qc (rows df).

(** [snapshot[a][b]] *)
Definition field2 (snapshot : pyval) (a b : string) : Outcome pyval :=
  x <- getitem snapshot a ;; getitem x b.

(** [_pct_change_over_hours] read on rows instead of on the [Close] series. *)
Definition pct_on_rows (hours : Z) (v : list Row) : pyfloat :=
  match v with
  | [] => NaN
  | x :: _ =>
      let rl := last v x in
      let cutoff := time rl - Timedelta_hours hours in
      let base :=
        match filter (fun r => time r <=? cutoff) v with
        | [] => Close x
        | y :: ys => Close (last (y :: ys) y)
        end in
      if feqb base (F 0) || isna base then NaN
      else fmul (fdiv (fsub (Close rl) base) base) (F 100)
  end.

(** A numeric field of a snapshot: a float, or [None]. *)
Definition numeric (v : pyval) : Prop :=
  v = VNone \/ exists x, v = VFloat x.

(** The shape of a snapshot value: the five groups with their fields, the
    numeric fields numeric and the futures tickers a list of strings. *)
Definition is_snapshot (s : pyval) : Prop :=
  (exists v, getitem s "as_of_local" = Ok v) /\
  (exists v, field2 s "spot" "ticker" = Ok v) /\
  (exists v, field2 s "spot" "price" = Ok v /\ numeric v) /\
  (exists v, field2 s "spot" "change_24h_pct" = Ok v /\ numeric v) /\
  (exists v, field2 s "etf" "ticker" = Ok v) /\
  (exists v, field2 s "etf" "price" = Ok v /\ numeric v) /\
  (exists v, field2 s "etf" "change_24h_pct" = Ok v /\ numeric v) /\
  (exists v, field2 s "etf" "last_hour_volume" = Ok v /\ numeric v) /\
  (exists l, field2 s "futures" "tickers" = Ok (VStrList l)) /\
  (exists v, field2 s "futures" "price_main" = Ok v /\ numeric v) /\
  (exists v, field2 s "futures" "change_24h_pct" = Ok v /\ numeric v) /\
  (exists v, field2 s "futures" "last_hour_volume_sum" = Ok v /\ numeric v) /\
  (exists v, field2 s "totals" "last_hour_volume_all" = Ok v /\ numeric v).


(** The record a build yields in world [w] once the clock has been read as
    [now_utc_ts]. *)
Definition snapshot_at (w : World) (now_utc_ts : Timestamp) : pyval :=
  snapshot_record (_now_tz_text w) now_utc_ts (retrieve w).



(** A valid series: its index increases, it has a close, and no close of
    it is zero. *)
Definition valid_series (df : DataFrame) : Prop :=
  increasing df /\
  (exists c, last_valid_close df c) /\
  Forall (fun r => Close r <> F 0) (rows df).

(** ** The percentage change on binary64 numbers *)

Module Binary64.

(** [_pct_change_over_hours] as above, the cells being IEEE binary64
    numbers with the rounding arithmetic of Python's [float]. *)

Record Row : Type := mkRow {
  time : Timestamp;
  Close : float
}.

Record DataFrame : Type := mkDataFrame {
  columns : list string;
  rows : list Row
}.

Definition empty (df : DataFrame) : bool :=
  (Nat.eqb (List.length (rows df)) 0) || (Nat.eqb (List.length (columns df)) 0).

Definition has_column (name : string) (df : DataFrame) : bool :=
  existsb (String.eqb name) (columns df).

Definition Series := list (Timestamp * float).

Definition col_Close (df : DataFrame) : Series :=
  map (fun r => (time r, Close r)) (rows df).

Definition dropna (s : Series) : Series :=
  filter (fun p => negb (PrimFloat.is_nan (snd p))) s.

Definition loc_upto (s : Series) (label : Timestamp) : Series :=
  filter (fun p => fst p <=? label) s.

Definition _pct_change_over_hours (df : DataFrame) (hours : Z) : float :=
  if empty df || negb (has_column "Close" df) then PrimFloat.nan
  else
    let closes := dropna (col_Close df) in
    match closes with
    | [] => PrimFloat.nan
    | first :: _ =>
        let last_time := fst (List.last closes first) in
        let last := snd (List.last closes first) in
        let cutoff_time := last_time - Timedelta_hours hours in
        let past_series := loc_upto closes cutoff_time in
        let base :=
          match past_series with
          | [] => snd first
          | p :: _ => snd (List.last past_series p)
          end in
        if PrimFloat.eqb base 0%float || PrimFloat.is_nan base then PrimFloat.nan
        else ((last - base) / base * 100)%float
    end.

Definition scale_closes (k : float) (df : DataFrame) : DataFrame :=
  mkDataFrame (columns df)
    (map (fun r => mkRow (time r) (k * Close r)%float) (rows df)).

(** An hourly frame: 2000.7 thirty hours ago, 2051.3 two hours ago (the
    binary64 numbers nearest to these decimals). *)
Definition hourly_frame : DataFrame :=
  mkDataFrame ["Open"; "High"; "Low"; "Close"; "Adj Close"; "Volume"]%string
    [mkRow (Timedelta_hours 479970) 0x1.f42cccccccccdp+10%float;
     mkRow (Timedelta_hours 479998) 0x1.006999999999ap+11%float].


(** A sample counts when its close is not missing. *)
Definition valid (r : Row) : bool := negb (PrimFloat.is_nan (Close r)).


(** The index of a frame increases strictly. *)
Definition increasing (df : DataFrame) : Prop :=
  StronglySorted Z.lt (map time (rows df)).

End Binary64.

(** ** Sample data *)

(** The columns of a frame returned by the provider. *)
Definition ohlcv : list string :=
  ["Open"; "High"; "Low"; "Close"; "Adj Close"; "Volume"].

Definition t0 : Timestamp := Timedelta_hours 480000.

(** A minute frame whose only sample has no close. *)
Definition minute_frame_without_close : DataFrame :=
  mkDataFrame ohlcv [mkRow (t0 - Timedelta_minutes 1) NaN NaN].

(** An hourly frame: 2000 thirty hours ago, 2050 two hours ago. *)
Definition hourly_frame : DataFrame :=
  mkDataFrame ohlcv [mkRow (t0 - Timedelta_hours 30) (F 2000) (F 0);
                     mkRow (t0 - Timedelta_hours 2) (F 2050) (F 0)].

(** A minute frame: volumes 10, 20 and 30 at 70, 30 and 5 minutes ago. *)
Definition minute_frame : DataFrame :=
  mkDataFrame ohlcv [mkRow (t0 - Timedelta_minutes 70) (F 2049) (F 10);
                     mkRow (t0 - Timedelta_minutes 30) (F 2051) (F 20);
                     mkRow (t0 - Timedelta_minutes 5) (F 2052) (F 30)].

(** Frames of a build in which the minute frame of the spot instrument
    arrives with a missing close and its hourly frame is sound. *)
Definition frames_spot_close_missing : Frames :=
  {| spot_1h := hourly_frame;
     etf_1h := hourly_frame;
     fut_main_1h := hourly_frame;
     spot_1m := minute_frame_without_close;
     etf_1m := minute_frame;
     fut_1m_list := [minute_frame; minute_frame];
     fut_main_1m := minute_frame |}.

(** A world in which the provider fails on every request. *)
Definition world_provider_down : World :=
  mkWorld "2025-01-01 12:00:00 EET" (fun _ => t0) (fun _ _ _ _ => Raised).

(** A world in which the primary contract is served and every request about
    the micro contract fails. *)
Definition world_micro_down : World :=
  mkWorld "2025-01-01 12:00:00 EET" (fun _ => t0)
    (fun _ t _ i =>
       if String.eqb t "MGC=F" then Raised
       else if String.eqb i "1h" then Returned hourly_frame
       else Returned minute_frame).

(** A printed form for non-strings, to run the formatter on examples. *)
Definition repr_placeholder (v : pyval) : string := "<object>".

(** ** Frames built from frames *)

(** The frame [df] with its samples replaced by [rs]. *)
Definition with_rows (df : DataFrame) (rs : list Row) : DataFrame :=
  mkDataFrame (columns df) rs.

(** The frame [df] after one more sample has arrived. *)
Definition append_row (df : DataFrame) (r : Row) : DataFrame :=
  with_rows df (rows df ++ [r]).

(** A sample whose volume, when present, is not negative. *)
Definition nonneg_volume (r : Row) : Prop :=
  match Volume r with NaN => True | Num v => (0 <= v)%Qc end.

(** A sample whose volume, when present, is a whole number that is not
    negative, as a count of units traded is. *)
Definition whole_volume (r : Row) : Prop :=
  match Volume r with
  | NaN => True
  | Num v => exists n : Z, 0 <= n /\ v = Q2Qc (inject_Z n)
  end.

(** The volumes of a batch of samples added up, a missing one counting
    for zero. *)
Definition total_volume (rs : list Row) : Qc :=
  fold_right (fun r acc => (match Volume r with Num v => v | NaN => 0 end + acc)%Qc)
             0%Qc rs.

(** Volumes that binary64 numbers add without rounding: whole numbers
    whose total does not exceed [2^53]. *)
Definition exact_volumes (rs : list Row) : Prop :=
  Forall whole_volume rs /\ (total_volume rs <= Q2Qc (inject_Z (2 ^ 53)))%Qc.

(** A sample whose close, when present, is positive. *)
Definition positive_close (r : Row) : Prop :=
  match Close r with NaN => True | Num c => (0 < c)%Qc end.

(** The frame [df] with every sample stamped [d] later. *)
Definition shift_time (d : Z) (df : DataFrame) : DataFrame :=
  with_rows df (map (fun r => mkRow (time r + d) (Close r) (Volume r)) (rows df)).

(** The frame [df] with the volume of every sample rewritten by [f]. *)
Definition set_volumes (f : Row -> pyfloat) (df : DataFrame) : DataFrame :=
  with_rows df (map (fun r => mkRow (time r) (Close r) (f r)) (rows df)).

(** The frame [df] with the close of every sample rewritten by [f]. *)
Definition set_closes (f : Row -> pyfloat) (df : DataFrame) : DataFrame :=
  with_rows df (map (fun r => mkRow (time r) (f r) (Volume r)) (rows df)).

(** An hourly frame with a single sample. *)
Definition single_sample_frame : DataFrame :=
  mkDataFrame ohlcv [mkRow t0 (F 2050) NaN].

(** ** What the formatter reads *)

(** The fields [format_snapshot] reads inside the groups, in the order it
    reads them. *)
Definition fields_read : list (string * string) :=
  [("spot", "ticker"); ("spot", "price"); ("spot", "change_24h_pct");
   ("etf", "ticker"); ("etf", "price"); ("etf", "change_24h_pct");
   ("etf", "last_hour_volume");
   ("futures", "tickers"); ("futures", "price_main");
   ("futures", "change_24h_pct"); ("futures", "last_hour_volume_sum");
   ("totals", "last_hour_volume_all")]%string.

(** A value a [for] loop accepts. *)
Definition iterable (v : pyval) : Prop :=
  match v with
  | VNone | VFloat _ => False
  | VStr _ | VStrList _ | VDict _ => True
  end.

(** A value a change cannot be: a string, a list or a dict, which the
    format [+.2f] refuses. *)
Definition not_a_change (v : pyval) : Prop :=
  match v with
  | VStr _ | VStrList _ | VDict _ => True
  | VNone | VFloat _ => False
  end.

(** A value [format_snapshot] cannot render: a key it reads is missing, one
    of the three changes is a string, a list or a dict, or the tickers are
    [None] or a float. *)
Definition unrenderable (s : pyval) : Prop :=
  (exists e, getitem s "as_of_local" = Raise e) \/
  (exists a b e, In (a, b) fields_read /\ field2 s a b = Raise e) \/
  (exists a v, In a ["spot"; "etf"; "futures"]%string /\
               field2 s a "change_24h_pct" = Ok v /\ not_a_change v) \/
  (exists v, field2 s "futures" "tickers" = Ok v /\ ~ iterable v).

(** The text of the report, the values of the fields given. *)
Definition layout (py_repr : pyval -> string)
    (as_of sp_ticker sp_price : pyval) (sp_pct : string)
    (et_ticker et_price : pyval) (et_pct : string) (et_volume : pyval)
    (ts : list string) (fu_price : pyval) (fu_pct : string)
    (fu_volume tot_volume : pyval) : string :=
  (let blank := EmptyString in
   let l1 := "📊 *Золото — сводка*" in
   let l2 := "⏱ Обновлено: " ++ py_str py_repr as_of in
   let l4 := "🪙 *Spot (XAU/USD)* `" ++ py_str py_repr sp_ticker ++ "`" in
   let l5 := "  Цена: $" ++ _fmt_money sp_price ++ "  |  24ч: " ++ sp_pct in
   let l7 := "🏦 *Фондовый рынок (ETF)* `" ++ py_str py_repr et_ticker ++ "`" in
   let l8 := "  Цена: $" ++ _fmt_money et_price ++ "  |  24ч: " ++ et_pct in
   let l9 := "  Объём за последний час: " ++ _fmt_int et_volume in
   let tickers_str := String.concat ", " (map (fun t => "`" ++ t ++ "`") ts) in
   let l11 := "🛢 *Фьючерсы (COMEX)* " ++ tickers_str in
   let l12 := "  Цена (главный контракт): $" ++ _fmt_money fu_price
                ++ "  |  24ч: " ++ fu_pct in
   let l13 := "  Суммарный объём фьючерсов за последний час: "
                ++ _fmt_int fu_volume in
   let l15 := "🧮 *Итого объём (ETF + фьючерсы) за последний час:* "
                ++ _fmt_int tot_volume in
   let l17 := "_Источник данных: Yahoo Finance (через yfinance). Объёмы спота обычно недоступны, поэтому в итог включены ETF и фьючерсы._" in
   String.concat nl
     (l1 :: l2 :: blank :: l4 :: l5 :: blank :: l7 :: l8 :: l9 :: blank :: l11
         :: l12 :: l13 :: blank :: l15 :: blank :: l17 :: nil))%string.

(** The reads of [format_snapshot], one field after the other. *)
Definition format_by_fields (py_repr : pyval -> string) (s : pyval)
  : Outcome string :=
  as_of <- getitem s "as_of_local" ;;
  sp_ticker <- field2 s "spot" "ticker" ;;
  sp_price <- field2 s "spot" "price" ;;
  sp_change <- field2 s "spot" "change_24h_pct" ;;
  sp_pct <- pct sp_change ;;
  et_ticker <- field2 s "etf" "ticker" ;;
  et_price <- field2 s "etf" "price" ;;
  et_change <- field2 s "etf" "change_24h_pct" ;;
  et_pct <- pct et_change ;;
  et_volume <- field2 s "etf" "last_hour_volume" ;;
  fu_tickers <- field2 s "futures" "tickers" ;;
  ts <- py_iter fu_tickers ;;
  fu_price <- field2 s "futures" "price_main" ;;
  fu_change <- field2 s "futures" "change_24h_pct" ;;
  fu_pct <- pct fu_change ;;
  fu_volume <- field2 s "futures" "last_hour_volume_sum" ;;
  tot_volume <- field2 s "totals" "last_hour_volume_all" ;;
  Ok (layout py_repr as_of sp_ticker sp_price sp_pct et_ticker et_price et_pct
        et_volume ts fu_price fu_pct fu_volume tot_volume).

(** ** Reading a rendered number back *)

(** [s.replace(",", "")] *)
Fixpoint strip_commas (s : string) : string :=
  match s with
  | EmptyString => EmptyString
  | String c rest =>
      if Ascii.eqb c "," then strip_commas rest else String c (strip_commas rest)
  end.

(** [int(s.replace(",", ""))] on a decimal numeral. *)
Definition read_int (s : string) : option Z :=
  option_map Z.of_int (NilZero.int_of_string (strip_commas s)).

Fixpoint string_forall (P : ascii -> bool) (s : string) : bool :=
  match s with
  | EmptyString => true
  | String c rest => P c && string_forall P rest
  end.

Definition is_digit (c : ascii) : bool :=
  (48 <=? nat_of_ascii c)%nat && (nat_of_ascii c <=? 57)%nat.

(** The characters of a rendered amount: digits, separator, point, sign. *)
Definition money_char (c : ascii) : bool :=
  is_digit c || Ascii.eqb c "," || Ascii.eqb c "." || Ascii.eqb c "+"
  || Ascii.eqb c "-".

(** The text before and after the first point. *)
Fixpoint split_at_point (s : string) : option (string * string) :=
  match s with
  | EmptyString => None
  | String c rest =>
      if Ascii.eqb c "." then Some (EmptyString, rest)
      else option_map (fun ab => (String c (fst ab), snd ab)) (split_at_point rest)
  end.

Definition read_digits (s : string) : option Z :=
  option_map (fun d => Z.of_N (N.of_uint d)) (NilZero.uint_of_string s).

(** The number a signed decimal text with a point stands for, separators
    removed: what [Decimal(s.replace(",", ""))] gives. *)
Definition read_money (s : string) : option Q :=
  let t := strip_commas s in
  let signed :=
    match t with
    | String c rest =>
        if Ascii.eqb c "-" then (true, rest)
        else if Ascii.eqb c "+" then (false, rest) else (false, t)
    | EmptyString => (false, t)
    end in
  match split_at_point (snd signed) with
  | Some (a, b) =>
      match read_digits a, read_digits b with
      | Some ip, Some fp =>
          let v := (inject_Z ip
                    + inject_Z fp / inject_Z (10 ^ Z.of_nat (String.length b)))%Q in
          Some (if fst signed then (- v)%Q else v)
      | _, _ => None
      end
  | None => None
  end.

(** The two digits after the point. *)
Definition two_digits (fp : Z) : string :=
  String.append (if fp <? 10 then "0"%string else EmptyString) (digits fp).

(** The check run on each count of hundredths. *)
Definition two_digits_check (fp : Z) : bool :=
  match read_digits (two_digits fp) with
  | Some n => n =? fp
  | None => false
  end
  && Nat.eqb (String.length (two_digits fp)) 2
  && string_forall is_digit (two_digits fp).

(** A snapshot, and the same snapshot carrying one more key. *)
Definition sample_snapshot : pyval := snapshot_at world_micro_down t0.

Definition sample_snapshot_extended : pyval :=
  match sample_snapshot with
  | VDict d => VDict (d ++ [("debug", VStr "on")])
  | v => v
  end.

(** ** The requests of a build *)

(** Two worlds answer alike every request but those numbered in [ns]. *)
Definition agree_except (ns : list nat) (w w' : World) : Prop :=
  forall n t p i, ~ In n ns -> yf_history w n t p i = yf_history w' n t p i.

(** ** The command handler of [bot.py] *)

(** A call of the chat SDK made while a command is handled. *)
Inductive Call : Type :=
| SendAction (action : string)
| ReplyText (text : string) (parse_mode : option string).

(** What such a call does: it goes through, or it raises with a message. *)
Inductive Delivery : Type :=
| Delivered
| Failed (message : string).

Record Chat : Type := mkChat {
  send_action : string -> Delivery;
  reply_text : string -> option string -> Delivery
}.

(** What the [except Exception as e] of [gold_cmd] can catch: an exception
    of the core, one of the chat SDK, or the [AttributeError] of reading an
    attribute of [None]. *)
Inductive Caught : Type :=
| CoreError (e : exn)
| SdkError (message : string)
| NoneAttribute.

Section Handler.

(** [str(e)] on an exception of the core is the message its raiser gave;
    the messages are the libraries' own and are left open. *)
Variable exn_text : exn -> string.
Variable none_attribute_text : string.
Variable py_repr : pyval -> string.

Definition caught_text (c : Caught) : string :=
  match c with
  | CoreError e => exn_text e
  | SdkError m => m
  | NoneAttribute => none_attribute_text
  end.

(** [pytz.timezone(TZ_DEFAULT)] on line 21, the first thing
    [get_gold_snapshot] evaluates: the zone named by the environment is
    known or not, and [UnknownTimeZoneError] is a [KeyError]. *)
Definition pytz_timezone (zone_known : bool) : Outcome unit :=
  if zone_known then Ok tt else Raise KeyError.

(** The [try] block of [gold_cmd]: the calls made, and how it ended.
    [update.message] is [None] on an update that carries no new message
    (an edited message, say). *)
Definition gold_cmd_try (message : option Chat) (zone_known : bool) (w : World)
  : list Call * option Caught :=
  match message with
  | None => ([], Some NoneAttribute)
  | Some chat =>
      match send_action chat "typing" with
      | Failed m => ([SendAction "typing"], Some (SdkError m))
      | Delivered =>
          match (_ <- pytz_timezone zone_known ;;
                 snapshot <- get_gold_snapshot w ;;
                 format_snapshot py_repr snapshot) with
          | Raise e => ([SendAction "typing"], Some (CoreError e))
          | Ok text =>
              let calls := [SendAction "typing"; ReplyText text (Some "Markdown")] in
              match reply_text chat text (Some "Markdown") with
              | Delivered => (calls, None)
              | Failed m => (calls, Some (SdkError m))
              end
          end
      end
  end.

(** [gold_cmd]: the calls made, in order, and the exception the handler
    lets out, if any. *)
Definition gold_cmd (message : option Chat) (zone_known : bool) (w : World)
  : list Call * option Caught :=
  match gold_cmd_try message zone_known w with
  | (calls, None) => (calls, None)
  | (calls, Some e) =>
      match message with
      | None => (calls, Some NoneAttribute)
      | Some chat =>
          let text := ("Ошибка: " ++ caught_text e)%string in
          (calls ++ [ReplyText text None],
           match reply_text chat text None with
           | Delivered => None
           | Failed m => Some (SdkError m)
           end)
      end
  end.

End Handler.

(** ** The build with the exceptions of pandas *)

(** A [pd.Timestamp] and a [pd.Timedelta] keep their nanoseconds in a signed
    64-bit integer, whose least value stands for [NaT]. *)
Definition in_range (z : Z) : bool := (- 2 ^ 63 <? z) && (z <? 2 ^ 63).

(** [pd.Timedelta(hours=h)]; [OutOfBoundsTimedelta] is a [ValueError]. *)
Definition Timedelta_of_hours (h : Z) : Outcome Z :=
  if in_range (Timedelta_hours h) then Ok (Timedelta_hours h) else Raise ValueError.

(** [t - delta] on a timestamp; [OutOfBoundsDatetime] is a [ValueError]. *)
Definition Timestamp_minus (t : Timestamp) (delta : Z) : Outcome Timestamp :=
  if in_range (t - delta) then Ok (t - delta) else Raise ValueError.

(** [idx.is_monotonic_increasing] and [idx.is_monotonic_decreasing]. *)
Fixpoint monotonic_increasing (idx : list Timestamp) : bool :=
  match idx with
  | [] => true
  | a :: tl =>
      match tl with
      | [] => true
      | b :: _ => (a <=? b) && monotonic_increasing tl
      end
  end.

Fixpoint monotonic_decreasing (idx : list Timestamp) : bool :=
  match idx with
  | [] => true
  | a :: tl =>
      match tl with
      | [] => true
      | b :: _ => (b <=? a) && monotonic_decreasing tl
      end
  end.

(** The places of [label] in an index. *)
Fixpoint positions_from (n : nat) (label : Timestamp) (idx : list Timestamp)
  : list nat :=
  match idx with
  | [] => []
  | a :: tl =>
      if a =? label then n :: positions_from (S n) label tl
      else positions_from (S n) label tl
  end.

(** The places found hold one run: they follow one another. *)
Definition one_run (places : list nat) : bool :=
  match places with
  | [] => false
  | p :: _ => Nat.eqb (S (List.last places p)) (p + List.length places)
  end.

(** [s.loc[:label]] for a timestamp [label].  The right bound of the slice
    is the place after the last [label] of the index when the index holds
    the label, provided its occurrences form one run; a label the index
    does not hold is placed by bisection on a monotonic index, increasing
    or decreasing, and is a [KeyError] on any other. *)
Definition loc_slice_upto (s : Series) (label : Timestamp) : Outcome Series :=
  let idx := map fst s in
  if monotonic_increasing idx then Ok (loc_upto s label)
  else if monotonic_decreasing idx then Ok (filter (fun p => label <=? fst p) s)
  else
    let places := positions_from 0 label idx in
    if one_run places then Ok (firstn (S (List.last places 0%nat)) s)
    else Raise KeyError.

(** Lines 49 to 65 with the exceptions of lines 57 and 58. *)
Definition _pct_change_over_hours_run (df : DataFrame) (hours : Z)
  : Outcome pyfloat :=
  if empty df || negb (has_column "Close" df) then Ok NaN
  else
    let closes := dropna (col_Close df) in
    match closes with
    | [] => Ok NaN
    | first :: _ =>
        let last_time := fst (List.last closes first) in
        let last := snd (List.last closes first) in
        delta <- Timedelta_of_hours hours ;;
        cutoff_time <- Timestamp_minus last_time delta ;;
        past_series <- loc_slice_upto closes cutoff_time ;;
        let base :=
          match past_series with
          | [] => snd first
          | p :: _ => snd (List.last past_series p)
          end in
        Ok (if feqb base (F 0) || isna base then NaN
            else fmul (fdiv (fsub last base) base) (F 100))
    end.

(** Lines 67 to 72 with the exception of line 70. *)
Definition _last_hour_volume_sum_run (df : DataFrame) (now_utc : Timestamp)
  : Outcome pyfloat :=
  if empty df || negb (has_column "Volume" df) then Ok (F 0)
  else
    delta <- Timedelta_of_hours 1 ;;
    one_hour_ago <- Timestamp_minus now_utc delta ;;
    let mask := fun r => (one_hour_ago <? time r) && (time r <=? now_utc) in
    Ok (fsum (map fillna0 (map Volume (filter mask (rows df))))).




(** A frame as the provider delivers it: the index increases, its labels
    are timestamps, and so is the cutoff a day before any of them. *)
Definition well_formed (df : DataFrame) : Prop :=
  increasing df /\
  Forall (fun r => in_range (time r) = true /\
                   in_range (time r - Timedelta_hours 24) = true) (rows df).

(** A reference instant: a timestamp, and so is the instant an hour before. *)
Definition reference_instant (now : Timestamp) : Prop :=
  in_range now = true /\ in_range (now - Timedelta_hours 1) = true.




(** * Properties *)

(** Two finite floats with the same rational value are equal. *)
Lemma Num_ext (a b : Qc) : (this a == this b)%Q -> Num a = Num b.
Proof. intros H. f_equal. apply Qc_is_canon. exact H. Qed.

(** Closed equations between floats: evaluate both sides, then compare the
    rationals by their canonical representatives. *)
Ltac float_compute :=
  vm_compute;
  first [ reflexivity
        | apply Num_ext; reflexivity
        | apply (f_equal (fun x => Ok (VFloat x))); apply Num_ext; reflexivity ].

Example pct_scenario :
  _pct_change_over_hours hourly_frame 24 = Num (Q2Qc (5 # 2)).
Proof. float_compute. Qed.

Example fmt_examples :
  _fmt_money (VFloat (Num (Q2Qc (1234567891 # 1000)))) = "1,234,567.89"
  /\ _fmt_money (VFloat (Num (Q2Qc (-1 # 1000)))) = "-0.00"
  /\ _fmt_money (VFloat (Num (Q2Qc (1006 # 1000)))) = "1.01"
  /\ _fmt_money (VFloat (F 999)) = "999.00"
  /\ _fmt_money (VFloat (F 1000)) = "1,000.00"
  /\ _fmt_money (VFloat NaN) = "nan"
  /\ _fmt_money VNone = "n/a"
  /\ _fmt_int (VFloat (Num (Q2Qc (25 # 10)))) = "2"
  /\ _fmt_int (VFloat (Num (Q2Qc (35 # 10)))) = "4"
  /\ _fmt_int (VFloat (Num (Q2Qc (-12345675 # 10)))) = "-1,234,568"
  /\ _fmt_int (VFloat NaN) = "0"
  /\ pct (VFloat (Num (Q2Qc (5 # 2)))) = Ok "+2.50%"
  /\ pct (VFloat (Num (Q2Qc (-5 # 2)))) = Ok "-2.50%"
  /\ pct (VFloat (F 0)) = Ok "+0.00%"
  /\ pct (VFloat NaN) = Ok "n/a".
Proof. repeat split; vm_compute; reflexivity. Qed.

(** ** Lists *)

Section ListFacts.
Context {A : Type}.
Implicit Types (f : A -> bool) (l : list A).

Lemma filter_nil_iff f l :
  filter f l = [] <-> Forall (fun x => f x = false) l.
Proof.
  induction l as [|a l IH]; simpl.
  - split; auto.
  - destruct (f a) eqn:Fa; split; intros H.
    + discriminate.
    + inversion H; congruence.
    + constructor; [assumption | now apply IH].
    + inversion H; now apply IH.
Qed.

(** The last element a filter keeps sits in the list with nothing kept
    after it. *)
Lemma filter_last_split f l x xs d :
  filter f l = x :: xs ->
  exists pre post,
    l = pre ++ last (filter f l) d :: post /\
    f (last (filter f l) d) = true /\
    Forall (fun y => f y = false) post.
Proof.
  revert x xs; induction l as [|a l IH] using rev_ind; intros x xs H.
  - discriminate.
  - rewrite filter_app in *; simpl in *.
    destruct (f a) eqn:Fa.
    + rewrite last_last. exists l, []. auto.
    + rewrite app_nil_r in *.
      destruct (IH _ _ H) as (pre & post & E & T & P).
      exists pre, (post ++ [a]). repeat split; auto.
      * rewrite E at 1. now rewrite <- app_assoc.
      * apply Forall_app; auto.
Qed.

Lemma filter_split_last f pre r post d :
  f r = true -> Forall (fun y => f y = false) post ->
  last (filter f (pre ++ r :: post)) d = r.
Proof.
  intros T P. rewrite filter_app; simpl; rewrite T.
  apply filter_nil_iff in P. rewrite P. apply last_last.
Qed.

Lemma last_map {B : Type} (g : A -> B) l d :
  last (map g l) (g d) = g (last l d).
Proof.
  induction l as [|a [|b l] IH]; simpl in *; auto.
Qed.

Lemma last_default l a d d' : last (a :: l) d = last (a :: l) d'.
Proof.
  revert a; induction l as [|b l IH]; intros a; simpl in *; auto.
Qed.

Lemma last_In l a d : In (last (a :: l) d) (a :: l).
Proof.
  revert a; induction l as [|b l IH]; intros a.
  - now left.
  - right. apply (IH b).
Qed.
End ListFacts.

(** ** Frames and their closes *)

Lemma valid_true r : valid r = true <-> exists c, Close r = Num c.
Proof.
  unfold valid; destruct (Close r); simpl; split; intros H;
    try discriminate; eauto; now destruct H.
Qed.

Lemma valid_false r : valid r = false <-> Close r = NaN.
Proof.
  unfold valid; destruct (Close r); simpl; split; intros H;
    try discriminate; auto.
Qed.

Lemma closes_of_rows df :
  dropna (col_Close df)
  = map (fun r => (time r, Close r)) (filter valid (rows df)).
Proof.
  unfold dropna, col_Close. now rewrite filter_map_swap.
Qed.

Lemma has_column_columns name df :
  has_column name df = true -> Nat.eqb (List.length (columns df)) 0 = false.
Proof.
  unfold has_column. destruct (columns df); simpl; auto; discriminate.
Qed.

Lemma empty_rows df :
  empty df = true -> has_column "Close" df = false \/ rows df = [].
Proof.
  unfold empty. intros H.
  destruct (has_column "Close" df) eqn:C; auto.
  rewrite (has_column_columns _ _ C), orb_false_r in H.
  right. destruct (rows df); [reflexivity | discriminate].
Qed.

Lemma empty_no_valid_close df : empty df = true -> no_valid_close df.
Proof.
  intros H. destruct (empty_rows _ H) as [C|R]; [now left | right].
  rewrite R. constructor.
Qed.

Lemma no_valid_close_filter df :
  has_column "Close" df = true ->
  (no_valid_close df <-> filter valid (rows df) = []).
Proof.
  intros C. rewrite filter_nil_iff. unfold no_valid_close. split.
  - intros [H|H]; [congruence|].
    eapply Forall_impl; [|exact H]. intros r. apply valid_false.
  - intros H. right. eapply Forall_impl; [|exact H]. intros r. apply valid_false.
Qed.

(** The guard and the two reads of [closes] shared by [_latest_price] and
    [_pct_change_over_hours]. *)
Lemma closes_cases df :
  (no_valid_close df /\
   (empty df || negb (has_column "Close" df) = true \/ dropna (col_Close df) = []))
  \/
  (empty df || negb (has_column "Close" df) = false /\
   exists x xs, filter valid (rows df) = x :: xs).
Proof.
  destruct (has_column "Close" df) eqn:C.
  - destruct (empty df) eqn:E.
    + left. split; [now apply empty_no_valid_close | now left].
    + destruct (filter valid (rows df)) as [|x xs] eqn:Fv.
      * left. split; [now apply no_valid_close_filter|].
        right. now rewrite closes_of_rows, Fv.
      * right. split; [reflexivity | eauto].
  - left. split; [now left | left; apply orb_true_r].
Qed.

Lemma _latest_price_no_valid_close df :
  no_valid_close df -> _latest_price df = NaN.
Proof.
  intros H. unfold _latest_price.
  destruct (closes_cases df) as [(_ & [G|G]) | (G & x & xs & Fv)].
  - now rewrite G.
  - rewrite G. now destruct (empty df || negb (has_column "Close" df)).
  - rewrite orb_false_iff, negb_false_iff in G. destruct G as (_ & C).
    apply (no_valid_close_filter _ C) in H. congruence.
Qed.

Lemma _latest_price_last_valid_close df c :
  last_valid_close df c -> _latest_price df = Num c.
Proof.
  intros (C & pre & r & post & R & Cr & P). unfold _latest_price.
  assert (V : valid r = true) by (apply valid_true; eauto).
  assert (Pv : Forall (fun y => valid y = false) post).
  { eapply Forall_impl; [|exact P]. intros y. apply valid_false. }
  destruct (closes_cases df) as [(N & _) | (G & x & xs & Fv)].
  - apply (no_valid_close_filter _ C) in N.
    rewrite R, filter_app in N; simpl in N; rewrite V in N.
    now destruct (filter valid pre).
  - rewrite G, closes_of_rows, Fv. simpl map. cbv beta iota.
    change (snd (last (map (fun r => (time r, Close r)) (x :: xs))
                      ((fun r => (time r, Close r)) x)) = Num c).
    rewrite last_map. cbv beta. cbn [snd].
    rewrite <- Fv, R, (filter_split_last valid pre r post x V Pv). exact Cr.
Qed.

Lemma series_price_cases df :
  (exists c, last_valid_close df c) \/ no_valid_close df.
Proof.
  destruct (closes_cases df) as [(N & _) | (G & x & xs & Fv)]; [now right | left].
  rewrite orb_false_iff, negb_false_iff in G. destruct G as (_ & C).
  destruct (filter_last_split valid (rows df) x xs x Fv) as (pre & post & R & V & P).
  apply valid_true in V. destruct V as (c & Cr).
  exists c. split; [exact C|].
  exists pre, (last (filter valid (rows df)) x), post. repeat split; auto.
  eapply Forall_impl; [|exact P]. intros y. apply valid_false.
Qed.

Lemma _latest_price_series_price df : series_price df (_latest_price df).
Proof.
  destruct (series_price_cases df) as [(c & H) | H].
  - left. exists c. split; [exact H | now apply _latest_price_last_valid_close].
  - right. split; [exact H | now apply _latest_price_no_valid_close].
Qed.

(** ** The latest price of a snapshot *)


Lemma price_gate fine coarse :
  let p := _latest_price (if negb (empty fine) then fine else coarse) in
  price_fallback_on_empty fine coarse p /\
  (empty fine = true -> empty coarse = true -> p = NaN).
Proof.
  unfold price_fallback_on_empty.
  destruct (empty fine) eqn:E; simpl; repeat split; try discriminate; intros.
  - apply _latest_price_series_price.
  - now apply _latest_price_no_valid_close, empty_no_valid_close.
  - apply _latest_price_series_price.
Qed.

(** C1, as the builder does it.  In every snapshot record the price of the
    spot instrument, of the ETF and of the primary futures contract is the
    close of the last sample with a non-missing close of the minute frame
    whenever that frame is not empty, and is unavailable when such a frame
    has no valid close; only an empty minute frame sends the builder to the
    hourly frame, whose last valid close is then reported; with both frames
    empty the price is unavailable. *)
Theorem snapshot_latest_price (now_local : string) (now_utc_ts : Timestamp)
    (fr : Frames) :
  let s := snapshot_record now_local now_utc_ts fr in
  (exists p, field2 s "spot" "price" = Ok (VFloat p) /\
             price_fallback_on_empty (spot_1m fr) (spot_1h fr) p /\
             (empty (spot_1m fr) = true -> empty (spot_1h fr) = true -> p = NaN)) /\
  (exists p, field2 s "etf" "price" = Ok (VFloat p) /\
             price_fallback_on_empty (etf_1m fr) (etf_1h fr) p /\
             (empty (etf_1m fr) = true -> empty (etf_1h fr) = true -> p = NaN)) /\
  (exists p, field2 s "futures" "price_main" = Ok (VFloat p) /\
             price_fallback_on_empty (fut_main_1m fr) (fut_main_1h fr) p /\
             (empty (fut_main_1m fr) = true -> empty (fut_main_1h fr) = true ->
              p = NaN)).
Proof.
  cbv zeta. repeat split.
  - eexists; split; [reflexivity | apply price_gate].
  - eexists; split; [reflexivity | apply price_gate].
  - eexists; split; [reflexivity | apply price_gate].
Qed.

(** C1 as worded fails: a minute frame whose samples all miss their close is
    not empty, so the hourly frame (last close 2050) is never consulted and
    the price is the marker. *)
Lemma snapshot_latest_price_no_fallback :
  ~ (exists p,
       field2 (snapshot_record "now" t0 frames_spot_close_missing) "spot" "price"
         = Ok (VFloat p) /\
       price_fallback_on_no_valid_close
         (spot_1m frames_spot_close_missing) (spot_1h frames_spot_close_missing) p).
Proof.
  intros (p & H & Hc).
  assert (E : p = NaN) by (vm_compute in H; congruence).
  subst p.
  destruct Hc as [(c & _ & Ec) | (_ & [(c & _ & Ec) | ([N | N] & _)])];
    try discriminate.
  simpl in N. inversion N as [|? ? _ N']; subst.
  inversion N' as [|? ? Cr _]; subst. discriminate.
Qed.

(** ** The percentage change *)

Lemma _pct_change_on_rows df hours :
  _pct_change_over_hours df hours
  = if empty df || negb (has_column "Close" df) then NaN
    else pct_on_rows hours (filter valid (rows df)).
Proof.
  unfold _pct_change_over_hours.
  destruct (empty df || negb (has_column "Close" df)); [reflexivity|].
  rewrite closes_of_rows.
  destruct (filter valid (rows df)) as [|x xs]; [reflexivity|].
  set (h := fun r => (time r, Close r)).
  unfold pct_on_rows, loc_upto. simpl map. cbv beta iota zeta.
  change (h x :: map h xs) with (map h (x :: xs)).
  rewrite !(last_map h (x :: xs) x).
  rewrite (filter_map_swap (fun p => fst p <=? _) h). cbn [fst snd h].
  destruct (filter _ (x :: xs)) as [|y ys]; [reflexivity|].
  simpl map. cbv beta iota.
  change (h y :: map h ys) with (map h (y :: ys)).
  now rewrite (last_map h (y :: ys) y).
Qed.

Section Increasing.
Variable df : DataFrame.
Hypothesis Hinc : increasing df.

Lemma sorted_filter (f : Row -> bool) (l : list Row) :
  StronglySorted Z.lt (map time l) ->
  StronglySorted Z.lt (map time (filter f l)).
Proof.
  induction l as [|a l IH]; simpl; intros H; [constructor|].
  inversion H as [|? ? Hs Hall]; subst.
  destruct (f a); simpl; auto.
  constructor; auto.
  rewrite Forall_forall in *. intros t Ht.
  apply in_map_iff in Ht. destruct Ht as (r & <- & Hr).
  apply filter_In in Hr. apply Hall, in_map, Hr.
Qed.

Lemma sorted_head_least (x : Row) (l : list Row) :
  StronglySorted Z.lt (map time (x :: l)) ->
  forall r, In r (x :: l) -> time x <= time r.
Proof.
  simpl. intros H r [<-|Hr]; [lia|].
  inversion H as [|? ? _ Hall]; subst.
  rewrite Forall_forall in Hall.
  specialize (Hall (time r) (in_map time _ _ Hr)). lia.
Qed.

Lemma sorted_last_greatest (x : Row) (l : list Row) :
  StronglySorted Z.lt (map time (x :: l)) ->
  forall r, In r (x :: l) -> time r <= time (last (x :: l) x).
Proof.
  revert x. induction l as [|y l IH]; intros x H r Hr.
  - destruct Hr as [<-|[]]. simpl. lia.
  - inversion H as [|? ? Hs Hall]; subst.
    change (last (x :: y :: l) x) with (last (y :: l) x).
    rewrite (last_default l y x y).
    destruct Hr as [<-|Hr].
    + rewrite Forall_forall in Hall.
      specialize (Hall (time (last (y :: l) y))
                       (in_map time _ _ (last_In l y y))). lia.
    + now apply IH.
Qed.

(** Two rows of an increasing frame with the same label are the same row. *)
Lemma sorted_time_inj (l : list Row) :
  StronglySorted Z.lt (map time l) ->
  forall a b, In a l -> In b l -> time a = time b -> a = b.
Proof.
  induction l as [|x l IH]; simpl; intros H a b Ha Hb E; [contradiction|].
  inversion H as [|? ? Hs Hall]; subst.
  rewrite Forall_forall in Hall.
  destruct Ha as [<-|Ha], Hb as [<-|Hb]; auto.
  - specialize (Hall _ (in_map time _ _ Hb)). lia.
  - specialize (Hall _ (in_map time _ _ Ha)). lia.
Qed.

Lemma sample_filter r :
  has_column "Close" df = true ->
  (sample df r <-> In r (filter valid (rows df))).
Proof.
  intros C. unfold sample. rewrite filter_In. tauto.
Qed.

Lemma latest_sample_unique a b :
  latest_sample df a -> latest_sample df b -> a = b.
Proof.
  intros (Sa & Ma) (Sb & Mb).
  apply (sorted_time_inj (rows df) Hinc); try apply Sa; try apply Sb.
  specialize (Ma _ Sb). specialize (Mb _ Sa). lia.
Qed.

Lemma base_sample_unique cutoff a b :
  base_sample df cutoff a -> base_sample df cutoff b -> a = b.
Proof.
  intros Ha Hb.
  apply (sorted_time_inj (rows df) Hinc).
  - destruct Ha as [(S & _) | (_ & S & _)]; apply S.
  - destruct Hb as [(S & _) | (_ & S & _)]; apply S.
  - destruct Ha as [(Sa & Ca & Ma) | (Fa & Sa & Ma)],
             Hb as [(Sb & Cb & Mb) | (Fb & Sb & Mb)].
    + specialize (Ma _ Sb Cb). specialize (Mb _ Sa Ca). lia.
    + specialize (Fb _ Sa). lia.
    + specialize (Fa _ Sb). lia.
    + specialize (Ma _ Sb). specialize (Mb _ Sa). lia.
Qed.

(** What the program computes, located in the frame. *)
Lemma _pct_change_located hours :
  ((forall r, ~ sample df r) /\ _pct_change_over_hours df hours = NaN) \/
  (exists rl rb l b,
      latest_sample df rl /\
      base_sample df (time rl - Timedelta_hours hours) rb /\
      Close rl = Num l /\ Close rb = Num b /\
      _pct_change_over_hours df hours
      = if Qc_eq_bool b 0 then NaN else Num ((l - b) / b * hundred)%Qc).
Proof.
  rewrite _pct_change_on_rows.
  destruct (closes_cases df) as [(N & G) | (G & x & xs & Fv)].
  - left. split.
    + intros r (C & I & V). apply (no_valid_close_filter _ C) in N.
      assert (Hr : In r (filter valid (rows df))) by (apply filter_In; auto).
      now rewrite N in Hr.
    + destruct G as [G|G]; [now rewrite G|].
      destruct (empty df || negb (has_column "Close" df)); auto.
      rewrite closes_of_rows in G. apply map_eq_nil in G. now rewrite G.
  - right. rewrite G.
    pose proof G as G'. rewrite orb_false_iff, negb_false_iff in G'.
    destruct G' as (_ & C).
    assert (Sv : StronglySorted Z.lt (map time (x :: xs))).
    { rewrite <- Fv. now apply sorted_filter. }
    rewrite Fv. unfold pct_on_rows.
    set (rl := last (x :: xs) x).
    set (cutoff := time rl - Timedelta_hours hours).
    assert (Lrl : latest_sample df rl).
    { split.
      - apply sample_filter; auto. rewrite Fv. apply last_In.
      - intros r' Hr'. apply sample_filter in Hr'; auto. rewrite Fv in Hr'.
        now apply sorted_last_greatest. }
    assert (Hb : exists rb,
               base_sample df cutoff rb /\
               match filter (fun r => time r <=? cutoff) (x :: xs) with
               | [] => Close x
               | y :: ys => Close (last (y :: ys) y)
               end = Close rb).
    { destruct (filter (fun r => time r <=? cutoff) (x :: xs)) as [|y ys] eqn:W.
      - exists x. split; [right; split | reflexivity].
        + intros r' Hr'. apply sample_filter in Hr'; auto. rewrite Fv in Hr'.
          apply filter_nil_iff in W. rewrite Forall_forall in W.
          specialize (W _ Hr'). apply Z.leb_gt in W. exact W.
        + split.
          * apply sample_filter; auto. rewrite Fv. now left.
          * intros r' Hr'. apply sample_filter in Hr'; auto. rewrite Fv in Hr'.
            now apply sorted_head_least with (l := xs).
      - exists (last (y :: ys) y). split; [left | reflexivity].
        assert (Sw : StronglySorted Z.lt (map time (y :: ys))).
        { rewrite <- W. now apply sorted_filter. }
        assert (Iw : In (last (y :: ys) y) (filter (fun r => time r <=? cutoff) (x :: xs))).
        { rewrite W. apply last_In. }
        apply filter_In in Iw. destruct Iw as (Iv & Le). apply Z.leb_le in Le.
        split; [|split; [exact Le|]].
        + apply sample_filter; auto. now rewrite Fv.
        + intros r' Hr' Le'. apply sample_filter in Hr'; auto. rewrite Fv in Hr'.
          apply sorted_last_greatest; auto. rewrite <- W.
          apply filter_In. split; auto. now apply Z.leb_le. }
    destruct Hb as (rb & Brb & ->).
    assert (Vl : valid rl = true) by apply Lrl.
    assert (Vb : valid rb = true).
    { destruct Brb as [(S & _) | (_ & S & _)]; apply S. }
    apply valid_true in Vl, Vb. destruct Vl as (l & El), Vb as (b & Eb).
    exists rl, rb, l, b.
    split; [exact Lrl | split; [exact Brb | split; [exact El | split; [exact Eb|]]]].
    rewrite El, Eb. cbn [feqb isna]. rewrite orb_false_r.
    change (F 0) with (Num 0%Qc).
    now destruct (Qc_eq_bool b 0).
Qed.
End Increasing.

(** On an increasing frame the wording of the specification leaves one
    value only. *)
Lemma pct_change_spec_deterministic df hours a b :
  increasing df ->
  pct_change_spec df hours a -> pct_change_spec df hours b -> a = b.
Proof.
  intros Hinc Ha Hb.
  destruct Ha as [Na | rl rb Lrl Brb Z0 | rl rb l c Lrl Brb El Eb NZ];
    destruct Hb as [Nb | rl' rb' Lrl' Brb' Z0' | rl' rb' l' c' Lrl' Brb' El' Eb' NZ'];
    try reflexivity;
    try (exfalso; apply (Na rl'), Lrl');
    try (exfalso; apply (Nb rl), Lrl).
  - assert (rl' = rl) by now apply (latest_sample_unique df Hinc). subst rl'.
    assert (rb' = rb) by now apply (base_sample_unique df Hinc _ _ _ Brb' Brb).
    subst rb'. rewrite Z0 in Eb'. exfalso. apply NZ'. now injection Eb'.
  - assert (rl' = rl) by now apply (latest_sample_unique df Hinc). subst rl'.
    assert (rb' = rb) by now apply (base_sample_unique df Hinc _ _ _ Brb' Brb).
    subst rb'. rewrite Z0' in Eb. exfalso. apply NZ. now injection Eb.
  - assert (rl' = rl) by now apply (latest_sample_unique df Hinc). subst rl'.
    assert (rb' = rb) by now apply (base_sample_unique df Hinc _ _ _ Brb' Brb).
    subst rb'. congruence.
Qed.

Lemma increasing_hourly_frame : increasing hourly_frame.
Proof.
  unfold increasing; simpl. repeat constructor.
Qed.

(** C3.  On a series with increasing timestamps the 24-hour change is
    (last - base) / base * 100, where last is the most recent non-missing
    close and base the most recent non-missing close at or before
    24 hours earlier, or the earliest non-missing close when none lies that
    far back; it is unavailable exactly when the series has no valid close
    (an empty series has none) or the base is zero. *)
Theorem pct_change_24h_spec (df : DataFrame) :
  increasing df ->
  pct_change_spec df 24 (_pct_change_over_hours df 24) /\
  (_pct_change_over_hours df 24 = NaN <-> pct_unavailable df 24).
Proof.
  intros Hinc.
  destruct (_pct_change_located df Hinc 24)
    as [(N & ->) | (rl & rb & l & b & Lrl & Brb & El & Eb & ->)].
  - split; [now constructor | split; [now left | reflexivity]].
  - unfold Qc_eq_bool. destruct (Qc_eq_dec b 0) as [Z0|NZ].
    + subst b. split; [now apply (pct_zero_base df 24 rl rb) |].
      split; [|reflexivity]. intros _. right. now exists rl, rb.
    + split; [now apply (pct_value df 24 rl rb) |].
      split; [discriminate|].
      intros [N | (rl' & rb' & Lrl' & Brb' & Z0)].
      * exfalso. apply (N rl), Lrl.
      * assert (rl' = rl) by now apply (latest_sample_unique df Hinc).
        subst rl'.
        assert (rb' = rb)
          by now apply (base_sample_unique df Hinc (time rl - Timedelta_hours 24)).
        subst rb'. rewrite Eb in Z0. exfalso. apply NZ.
        now injection Z0.
Qed.

Lemma pct_change_24h_spec_witness :
  increasing hourly_frame /\
  (pct_change_spec hourly_frame 24 (_pct_change_over_hours hourly_frame 24) /\
   (_pct_change_over_hours hourly_frame 24 = NaN <-> pct_unavailable hourly_frame 24)).
Proof.
  split; [exact increasing_hourly_frame |].
  apply (pct_change_24h_spec hourly_frame). exact increasing_hourly_frame.
Defined.

(** ** Scaling the closes *)

Lemma valid_scale_row k r : valid (scale_row k r) = valid r.
Proof. unfold valid; simpl. now destruct (Close r). Qed.

Lemma filter_valid_scale k l :
  filter valid (map (scale_row k) l) = map (scale_row k) (filter valid l).
Proof.
  rewrite filter_map_swap. f_equal. apply filter_ext. intros r.
  apply valid_scale_row.
Qed.

Lemma filter_time_scale k c l :
  filter (fun r => time r <=? c) (map (scale_row k) l)
  = map (scale_row k) (filter (fun r => time r <=? c) l).
Proof. now rewrite filter_map_swap. Qed.

(** The guarded quotient is unchanged when both closes are scaled. *)
Lemma pct_formula_scale (k : Qc) (a b : pyfloat) :
  k <> 0%Qc ->
  (if feqb (fmul (Num k) b) (F 0) || isna (fmul (Num k) b) then NaN
   else fmul (fdiv (fsub (fmul (Num k) a) (fmul (Num k) b)) (fmul (Num k) b))
             (F 100))
  = (if feqb b (F 0) || isna b then NaN
     else fmul (fdiv (fsub a b) b) (F 100)).
Proof.
  intros K. destruct b as [|q]; [reflexivity|].
  cbn [fmul feqb isna]. rewrite !orb_false_r.
  change (F 0) with (Num 0%Qc). cbn [feqb]. unfold Qc_eq_bool.
  destruct (Qc_eq_dec q 0) as [Z0|NZ], (Qc_eq_dec (k * q) 0) as [Z1|NZ1];
    try reflexivity.
  - subst q. exfalso. apply NZ1. ring.
  - exfalso. destruct (Qcmult_integral _ _ Z1); contradiction.
  - destruct a as [|p]; [reflexivity|].
    cbn [fmul fsub fdiv]. unfold F. f_equal. field. split; assumption.
Qed.

Lemma pct_on_rows_scale (k : Qc) (hours : Z) (v : list Row) :
  k <> 0%Qc ->
  pct_on_rows hours (map (scale_row k) v) = pct_on_rows hours v.
Proof.
  intros K. destruct v as [|x xs]; [reflexivity|].
  unfold pct_on_rows. simpl map. cbv beta iota zeta.
  change (scale_row k x :: map (scale_row k) xs) with (map (scale_row k) (x :: xs)).
  rewrite !(last_map (scale_row k) (x :: xs) x).
  cbn [time scale_row Close]. rewrite filter_time_scale.
  set (c := time (last (x :: xs) x) - Timedelta_hours hours).
  destruct (filter (fun r => time r <=? c) (x :: xs)) as [|y ys].
  - simpl map. cbv iota. now apply pct_formula_scale.
  - simpl map. cbv iota.
    change (scale_row k y :: map (scale_row k) ys) with (map (scale_row k) (y :: ys)).
    rewrite (last_map (scale_row k) (y :: ys) y). cbn [scale_row Close].
    now apply pct_formula_scale.
Qed.

(** In exact arithmetic the change does not see a scaling of the closes. *)
Lemma _pct_change_scale (k : Qc) (hours : Z) (df : DataFrame) :
  k <> 0%Qc ->
  _pct_change_over_hours (scale_closes k df) hours
  = _pct_change_over_hours df hours.
Proof.
  intros K. rewrite !_pct_change_on_rows.
  assert (E : empty (scale_closes k df) = empty df).
  { unfold empty, scale_closes; simpl. now rewrite length_map. }
  rewrite E. change (has_column "Close" (scale_closes k df))
    with (has_column "Close" df).
  destruct (empty df || negb (has_column "Close" df)); [reflexivity|].
  change (rows (scale_closes k df)) with (map (scale_row k) (rows df)).
  rewrite filter_valid_scale. now apply pct_on_rows_scale.
Qed.



(** ** The trailing-hour volume *)

Lemma mask_in_last_hour now r :
  (now - Timedelta_hours 1 <? time r) && (time r <=? now) = true
  <-> in_last_hour now r.
Proof.
  unfold in_last_hour. rewrite andb_true_iff, Z.ltb_lt, Z.leb_le. tauto.
Qed.

Lemma volume_fold (df : DataFrame) (now : Timestamp) (l : list Row) (acc : Qc) :
  has_column "Volume" df = true ->
  fold_left fadd
    (map fillna0
       (map Volume
          (filter (fun r => (now - Timedelta_hours 1 <? time r) && (time r <=? now))
                  l)))
    (Num acc)
  = Num (acc + fold_right (fun r s => (contribution df now r + s)%Qc) 0%Qc l)%Qc.
Proof.
  intros V. revert acc. induction l as [|r l IH]; intros acc.
  - simpl. f_equal. ring.
  - cbn [filter fold_right].
    unfold contribution at 1, volume_or_zero. rewrite V.
    destruct ((now - Timedelta_hours 1 <? time r) && (time r <=? now)) eqn:M;
      destruct (in_last_hour_dec now r) as [I|I].
    + cbn [map fold_left].
      destruct (Volume r) as [|v]; cbn [fillna0];
        change (F 0) with (Num 0%Qc); cbn [fadd]; rewrite IH; f_equal; ring.
    + apply mask_in_last_hour in M. contradiction.
    + apply mask_in_last_hour in I. congruence.
    + rewrite IH. f_equal. ring.
Qed.

Lemma trailing_hour_volume_no_column df now :
  has_column "Volume" df = false -> trailing_hour_volume df now = 0%Qc.
Proof.
  intros V. unfold trailing_hour_volume.
  induction (rows df) as [|r l IH]; simpl; [reflexivity|].
  rewrite IH. unfold contribution, volume_or_zero. rewrite V.
  destruct (in_last_hour_dec now r); ring.
Qed.

Lemma _last_hour_volume_sum_spec df now :
  _last_hour_volume_sum df now = Num (trailing_hour_volume df now).
Proof.
  unfold _last_hour_volume_sum.
  destruct (has_column "Volume" df) eqn:V.
  - rewrite orb_false_r. destruct (empty df) eqn:E.
    + unfold empty in E. rewrite (has_column_columns _ _ V), orb_false_r in E.
      unfold trailing_hour_volume. destruct (rows df); [reflexivity | discriminate].
    + unfold fsum. change (F 0) with (Num 0%Qc).
      rewrite (volume_fold df now (rows df) 0%Qc V). f_equal.
      unfold trailing_hour_volume. ring.
  - rewrite orb_true_r. now rewrite trailing_hour_volume_no_column.
Qed.

Lemma _last_hour_volume_sum_empty df now :
  empty df = true -> _last_hour_volume_sum df now = F 0.
Proof.
  intros E. unfold _last_hour_volume_sum. now rewrite E.
Qed.

(** C4.  The trailing one-hour volume is the sum of the volumes of exactly
    the samples stamped after [now - 1h] and at or before [now], a missing
    volume counting for zero; it is zero, not unavailable, on an empty
    series; volumes 10, 20 and 30 at 70, 30 and 5 minutes before [now] give
    50. *)
Theorem last_hour_volume_sum_spec :
  (forall df now,
      _last_hour_volume_sum df now = Num (trailing_hour_volume df now)) /\
  (forall df now r,
      (in_last_hour now r ->
       contribution df now r = volume_or_zero df r) /\
      (~ in_last_hour now r -> contribution df now r = 0%Qc)) /\
  (forall df now, empty df = true -> _last_hour_volume_sum df now = F 0) /\
  _last_hour_volume_sum minute_frame t0 = F 50.
Proof.
  split; [exact _last_hour_volume_sum_spec|].
  split.
  { intros df now r. unfold contribution.
    destruct (in_last_hour_dec now r); split; intros; tauto || reflexivity. }
  split; [exact _last_hour_volume_sum_empty|].
  float_compute.
Qed.

(** ** The formatter *)

Lemma pct_numeric (v : pyval) :
  numeric v -> exists t, pct v = Ok t.
Proof.
  intros [-> | (x & ->)]; [now exists "n/a"%string|].
  destruct x as [|q]; eexists; reflexivity.
Qed.

Section FormatterFacts.
Variable py_repr : pyval -> string.

Lemma getitem_field2 s a b v :
  field2 s a b = Ok v -> exists x, getitem s a = Ok x /\ getitem x b = Ok v.
Proof.
  unfold field2, bind. destruct (getitem s a) as [x|e]; [eauto | discriminate].
Qed.

Lemma format_snapshot_total (s : pyval) :
  is_snapshot s -> exists text, format_snapshot py_repr s = Ok text.
Proof.
  intros (A & ST & SP & SC & ET & EP & EC & EV & FT & FP & FC & FV & TV).
  destruct A as (as_of & A).
  destruct ST as (st & ST), SP as (sp & SP & _), SC as (sc & SC & NSC).
  destruct ET as (et & ET), EP as (ep & EP & _), EC as (ec & EC & NEC),
           EV as (ev & EV & _).
  destruct FT as (ft & FT), FP as (fp & FP & _), FC as (fc & FC & NFC),
           FV as (fv & FV & _).
  destruct TV as (tv & TV & _).
  apply getitem_field2 in ST, SP, SC, ET, EP, EC, EV, FT, FP, FC, FV, TV.
  destruct ST as (spot & S0 & ST), SP as (? & S1 & SP), SC as (? & S2 & SC).
  destruct ET as (etf & E0 & ET), EP as (? & E1 & EP), EC as (? & E2 & EC),
           EV as (? & E3 & EV).
  destruct FT as (fut & F0 & FT), FP as (? & F1 & FP), FC as (? & F2 & FC),
           FV as (? & F3 & FV).
  destruct TV as (tot & T0 & TV).
  rewrite S0 in S1, S2. injection S1 as <-. injection S2 as <-.
  rewrite E0 in E1, E2, E3. injection E1 as <-. injection E2 as <-.
  injection E3 as <-.
  rewrite F0 in F1, F2, F3. injection F1 as <-. injection F2 as <-.
  injection F3 as <-.
  destruct (pct_numeric _ NSC) as (t1 & P1).
  destruct (pct_numeric _ NEC) as (t2 & P2).
  destruct (pct_numeric _ NFC) as (t3 & P3).
  unfold format_snapshot.
  rewrite A; cbn [bind]. rewrite S0; cbn [bind]. rewrite ST, SP, SC; cbn [bind].
  rewrite P1; cbn [bind]. rewrite E0; cbn [bind].
  rewrite ET, EP, EC; cbn [bind]. rewrite P2; cbn [bind].
  rewrite EV; cbn [bind]. rewrite F0; cbn [bind]. rewrite FT; cbn [bind py_iter].
  rewrite FP, FC; cbn [bind]. rewrite P3; cbn [bind]. rewrite FV; cbn [bind].
  rewrite T0; cbn [bind]. rewrite TV; cbn [bind].
  eexists; reflexivity.
Qed.

Lemma snapshot_record_is_snapshot now_local now_utc_ts fr :
  is_snapshot (snapshot_record now_local now_utc_ts fr).
Proof.
  unfold is_snapshot, numeric.
  repeat split; eexists; try split; try reflexivity; right; eexists; reflexivity.
Qed.
End FormatterFacts.

(** C9.  Formatting is a function of the snapshot value alone and succeeds:
    every snapshot value has exactly one rendering, so formatting it twice
    gives the same text, and no snapshot value makes the formatter raise. *)
Theorem format_snapshot_deterministic_total (py_repr : pyval -> string)
    (s : pyval) :
  is_snapshot s ->
  exists text,
    format_snapshot py_repr s = Ok text /\
    forall text', format_snapshot py_repr s = Ok text' -> text' = text.
Proof.
  intros H. destruct (format_snapshot_total py_repr s H) as (text & E).
  exists text. split; [exact E | intros text' E'; congruence].
Qed.

Lemma format_snapshot_deterministic_total_witness :
  is_snapshot (snapshot_record "now" t0 frames_spot_close_missing) /\
  exists text,
    format_snapshot repr_placeholder
      (snapshot_record "now" t0 frames_spot_close_missing) = Ok text /\
    forall text',
      format_snapshot repr_placeholder
        (snapshot_record "now" t0 frames_spot_close_missing) = Ok text' ->
      text' = text.
Proof.
  pose proof (snapshot_record_is_snapshot "now" t0 frames_spot_close_missing) as H.
  split; [exact H|].
  exact (format_snapshot_deterministic_total repr_placeholder _ H).
Defined.

(** ** The groups of a snapshot *)

Lemma snapshot_record_fields now_local now fr :
  let s := snapshot_record now_local now fr in
  field2 s "spot" "price"
  = Ok (VFloat (_latest_price
                  (if negb (empty (spot_1m fr)) then spot_1m fr else spot_1h fr))) /\
  field2 s "spot" "change_24h_pct"
  = Ok (VFloat (_pct_change_over_hours (spot_1h fr) 24)) /\
  field2 s "etf" "price"
  = Ok (VFloat (_latest_price
                  (if negb (empty (etf_1m fr)) then etf_1m fr else etf_1h fr))) /\
  field2 s "etf" "change_24h_pct"
  = Ok (VFloat (_pct_change_over_hours (etf_1h fr) 24)) /\
  field2 s "etf" "last_hour_volume"
  = Ok (VFloat (_last_hour_volume_sum (etf_1m fr) now)) /\
  field2 s "futures" "price_main"
  = Ok (VFloat (_latest_price
                  (if negb (empty (fut_main_1m fr)) then fut_main_1m fr
                   else fut_main_1h fr))) /\
  field2 s "futures" "change_24h_pct"
  = Ok (VFloat (_pct_change_over_hours (fut_main_1h fr) 24)) /\
  field2 s "futures" "last_hour_volume_sum"
  = Ok (VFloat (py_sum (map (fun df => _last_hour_volume_sum df now)
                            (fut_1m_list fr)))) /\
  field2 s "totals" "last_hour_volume_all"
  = Ok (VFloat (fadd (py_sum (map (fun df => _last_hour_volume_sum df now)
                                  (fut_1m_list fr)))
                     (_last_hour_volume_sum (etf_1m fr) now))).
Proof. cbv zeta. repeat split. Qed.

Lemma retrieve_fut_1m_list w :
  fut_1m_list (retrieve w)
  = [_safe_history w 5 "GC=F" "90m" "1m"; _safe_history w 6 "MGC=F" "90m" "1m"].
Proof. reflexivity. Qed.



Lemma _pct_change_empty df hours :
  empty df = true -> _pct_change_over_hours df hours = NaN.
Proof. intros E. unfold _pct_change_over_hours. now rewrite E. Qed.



(** ** Availability on a valid series *)




Lemma _latest_price_available df :
  valid_series df -> exists c, _latest_price df = Num c.
Proof.
  intros (_ & (c & L) & _). exists c. now apply _latest_price_last_valid_close.
Qed.

(** ** The futures group *)



Lemma increasing_minute_frame : increasing minute_frame.
Proof.
  unfold increasing; simpl. repeat constructor.
Qed.

Example valid_series_samples :
  valid_series minute_frame /\ valid_series hourly_frame.
Proof.
  split.
  - split; [exact increasing_minute_frame | split].
    + exists (Q2Qc (inject_Z 2052)). split; [reflexivity|].
      exists [mkRow (t0 - Timedelta_minutes 70) (F 2049) (F 10);
              mkRow (t0 - Timedelta_minutes 30) (F 2051) (F 20)],
             (mkRow (t0 - Timedelta_minutes 5) (F 2052) (F 30)), [].
      repeat split. constructor.
    + repeat constructor; discriminate.
  - split; [exact increasing_hourly_frame | split].
    + exists (Q2Qc (inject_Z 2050)). split; [reflexivity|].
      exists [mkRow (t0 - Timedelta_hours 30) (F 2000) (F 0)],
             (mkRow (t0 - Timedelta_hours 2) (F 2050) (F 0)), [].
      repeat split. constructor.
    + repeat constructor; discriminate.
Qed.

(** The scenario of the specification: the micro contract fails, the primary
    contract is served. *)
Example futures_group_micro_down :
  let s := snapshot_at world_micro_down t0 in
  field2 s "futures" "price_main" = Ok (VFloat (F 2052)) /\
  field2 s "futures" "change_24h_pct" = Ok (VFloat (Num (Q2Qc (5 # 2)))) /\
  field2 s "futures" "last_hour_volume_sum" = Ok (VFloat (F 50)).
Proof.
  cbv zeta. repeat split; float_compute.
Qed.

(** ** Totals *)


(** ** Failed retrievals *)


Lemma empty_series_degrades df now :
  empty df = true ->
  _latest_price df = NaN /\
  _pct_change_over_hours df 24 = NaN /\
  _last_hour_volume_sum df now = F 0.
Proof.
  intros E. split; [|split].
  - now apply _latest_price_no_valid_close, empty_no_valid_close.
  - now apply _pct_change_empty.
  - now apply _last_hour_volume_sum_empty.
Qed.

(** *** The build with the exceptions of pandas *)

Lemma monotonic_increasing_sorted (l : list Timestamp) :
  StronglySorted Z.lt l -> monotonic_increasing l = true.
Proof.
  induction 1 as [|a l Hs IH Hall]; [reflexivity|].
  destruct l as [|b l']; [reflexivity|].
  change (monotonic_increasing (a :: b :: l'))
    with ((a <=? b) && monotonic_increasing (b :: l')).
  rewrite IH, andb_true_r. apply Z.leb_le.
  inversion Hall; subst. lia.
Qed.

Lemma loc_slice_upto_sorted (l : list Row) (label : Timestamp) :
  StronglySorted Z.lt (map time l) ->
  loc_slice_upto (map (fun r => (time r, Close r)) l) label
  = Ok (loc_upto (map (fun r => (time r, Close r)) l) label).
Proof.
  intros H. unfold loc_slice_upto.
  replace (map fst (map (fun r => (time r, Close r)) l)) with (map time l)
    by (rewrite map_map; reflexivity).
  now rewrite (monotonic_increasing_sorted _ H).
Qed.

(** The label slice on an index out of order, without and with the label,
    and on a decreasing index. *)
Example loc_slice_upto_cases :
  loc_slice_upto [(3, F 30); (1, F 10); (2, F 20)] 0 = Raise KeyError /\
  loc_slice_upto [(3, F 30); (1, F 10); (2, F 20)] 1
  = Ok [(3, F 30); (1, F 10)] /\
  loc_slice_upto [(3, F 30); (2, F 20); (1, F 10)] 2
  = Ok [(3, F 30); (2, F 20)] /\
  loc_slice_upto [(1, F 10); (2, F 20); (3, F 30)] 2
  = Ok [(1, F 10); (2, F 20)].
Proof. repeat split. Qed.

Lemma Timedelta_of_hours_day : Timedelta_of_hours 24 = Ok (Timedelta_hours 24).
Proof. reflexivity. Qed.

Lemma Timedelta_of_hours_one : Timedelta_of_hours 1 = Ok (Timedelta_hours 1).
Proof. reflexivity. Qed.

(** On a well-formed frame the change is computed without an exception. *)
Lemma _pct_change_over_hours_run_well_formed (df : DataFrame) :
  well_formed df ->
  _pct_change_over_hours_run df 24 = Ok (_pct_change_over_hours df 24).
Proof.
  intros [Hinc Hr].
  unfold _pct_change_over_hours_run, _pct_change_over_hours.
  destruct (empty df || negb (has_column "Close" df)); [reflexivity|].
  rewrite closes_of_rows.
  destruct (filter valid (rows df)) as [|x xs] eqn:E; [reflexivity|].
  set (h := fun r => (time r, Close r)).
  assert (Hs : StronglySorted Z.lt (map time (x :: xs))).
  { rewrite <- E. apply sorted_filter, Hinc. }
  assert (Hin : in_range (time (last (x :: xs) x) - Timedelta_hours 24) = true).
  { rewrite Forall_forall in Hr. apply Hr.
    assert (I : In (last (x :: xs) x) (filter valid (rows df)))
      by (rewrite E; apply last_In).
    now apply filter_In in I. }
  change (map h (x :: xs)) with (h x :: map h xs).
  cbv beta iota zeta.
  change (h x :: map h xs) with (map h (x :: xs)).
  rewrite !(last_map h (x :: xs) x).
  rewrite Timedelta_of_hours_day. cbn [bind fst snd h].
  unfold Timestamp_minus. rewrite Hin. cbn [bind].
  fold h. rewrite (loc_slice_upto_sorted (x :: xs) _ Hs).
  reflexivity.
Qed.

Lemma _last_hour_volume_sum_run_in_range (df : DataFrame) (now : Timestamp) :
  reference_instant now ->
  _last_hour_volume_sum_run df now = Ok (_last_hour_volume_sum df now).
Proof.
  intros [_ H]. unfold _last_hour_volume_sum_run, _last_hour_volume_sum.
  destruct (empty df || negb (has_column "Volume" df)); [reflexivity|].
  rewrite Timedelta_of_hours_one. cbn [bind].
  unfold Timestamp_minus. rewrite H. reflexivity.
Qed.






Lemma well_formed_hourly_frame : well_formed hourly_frame.
Proof.
  split; [apply increasing_hourly_frame|].
  repeat (constructor; [split; reflexivity|]). constructor.
Qed.







(** With the provider down on every request the record is the one of a
    market without data. *)
Example provider_down_record :
  let s := snapshot_at world_provider_down t0 in
  field2 s "spot" "price" = Ok (VFloat NaN) /\
  field2 s "etf" "price" = Ok (VFloat NaN) /\
  field2 s "etf" "change_24h_pct" = Ok (VFloat NaN) /\
  field2 s "etf" "last_hour_volume" = Ok (VFloat (F 0)) /\
  field2 s "futures" "last_hour_volume_sum" = Ok (VFloat (F 0)) /\
  field2 s "totals" "last_hour_volume_all" = Ok (VFloat (F 0)).
Proof. cbv zeta. repeat split; float_compute. Qed.

(** ** Unavailable prices in the rendering *)

(** C2 asks for the placeholder [n/a] wherever a price is unavailable.  The
    program does not raise, but it does not render the placeholder either:
    [_fmt_money] relies on the format to raise, and the format of
    [float("nan")], the marker the builder stores, does not, so the text is
    [nan].  The percentage, which tests [pd.isna], does render [n/a]. *)
Theorem fmt_money_unavailable_is_nan :
  _fmt_money (VFloat NaN) = "nan"%string /\
  pct (VFloat NaN) = Ok "n/a"%string /\
  forall py_repr,
    exists text,
      format_snapshot py_repr (snapshot_at world_provider_down t0) = Ok text /\
      field2 (snapshot_at world_provider_down t0) "etf" "price" = Ok (VFloat NaN) /\
      index 0 "$nan  |  24ч: n/a" text <> None /\
      index 0 "$n/a" text = None.
Proof.
  split; [reflexivity | split; [reflexivity|]].
  intros py_repr. eexists. split; [vm_compute; reflexivity|].
  split; [reflexivity|]. split; vm_compute; [discriminate | reflexivity].
Qed.

(** ** The clock of the builder *)

(** C10 asks that [get_gold_snapshot] always return the record with its
    fixed keys.  Line 95 localizes the result of [Timestamp.utcnow()], which
    is aware already, so [tz_localize] raises before any request is made:
    whatever the provider does, no record is returned. *)
Theorem get_gold_snapshot_raises (w : World) :
  get_gold_snapshot w = Raise TypeError.
Proof. reflexivity. Qed.

(** A naive timestamp is localized; the aware one of [utcnow] is not. *)
Example tz_localize_naive_aware :
  tz_localize_UTC (mkTs 5 None) = Ok (mkTs 5 (Some "UTC"%string)) /\
  tz_localize_UTC (Timestamp_utcnow world_micro_down 0) = Raise TypeError.
Proof. split; reflexivity. Qed.

(** The record of lines 123 to 145 does carry every key the formatter
    reads; a value of another shape is refused. *)
Example format_snapshot_needs_shape :
  format_snapshot repr_placeholder (VDict []) = Raise KeyError /\
  format_snapshot repr_placeholder VNone = Raise TypeError /\
  pct (VStr "2.5") = Raise ValueError.
Proof. repeat split. Qed.

Lemma format_snapshot_record_succeeds py_repr now_local now fr :
  exists text,
    format_snapshot py_repr (snapshot_record now_local now fr) = Ok text.
Proof.
  apply format_snapshot_total, snapshot_record_is_snapshot.
Qed.

(** ** Scaling on binary64 numbers *)

(** Without rounding at work the two models agree: 2000 and 2050 give 2.5. *)
Example binary64_scenario :
  Binary64._pct_change_over_hours
    (Binary64.mkDataFrame ["Close"%string]
       [Binary64.mkRow (t0 - Timedelta_hours 30) 2000%float;
        Binary64.mkRow (t0 - Timedelta_hours 2) 2050%float]) 24
  = 2.5%float.
Proof. vm_compute. reflexivity. Qed.








(** Nor is the difference bounded by rounding in the last digits: scaled
    by [2^1020] the closes 2000 and 2050 overflow, and the change 2.5 becomes
    unavailable. *)
Example binary64_scale_overflow :
  let df := Binary64.mkDataFrame ["Close"%string]
              [Binary64.mkRow (t0 - Timedelta_hours 30) 2000%float;
               Binary64.mkRow (t0 - Timedelta_hours 2) 2050%float] in
  Binary64._pct_change_over_hours df 24 = 2.5%float /\
  PrimFloat.is_nan
    (Binary64._pct_change_over_hours (Binary64.scale_closes 0x1p+1020%float df) 24)
  = true.
Proof. cbv zeta. split; vm_compute; reflexivity. Qed.

(** * Further properties of the reductions *)

(** ** Volumes *)

Lemma contribution_with_rows df rs now r :
  contribution (with_rows df rs) now r = contribution df now r.
Proof. reflexivity. Qed.

Lemma trailing_hour_volume_with_rows df rs now :
  trailing_hour_volume (with_rows df rs) now
  = fold_right (fun r acc => (contribution df now r + acc)%Qc) 0%Qc rs.
Proof. reflexivity. Qed.

Lemma contribution_sum_app df now rs1 rs2 :
  fold_right (fun r acc => (contribution df now r + acc)%Qc) 0%Qc (rs1 ++ rs2)
  = (fold_right (fun r acc => (contribution df now r + acc)%Qc) 0%Qc rs1
     + fold_right (fun r acc => (contribution df now r + acc)%Qc) 0%Qc rs2)%Qc.
Proof.
  induction rs1 as [|r rs1 IH]; simpl.
  - ring.
  - rewrite IH. ring.
Qed.

(** X1.  With whole volumes that add up to no more than [2^53], the
    trailing-hour volume of two batches of samples put one after the other
    is the sum of the volumes of the batches. *)
Theorem last_hour_volume_sum_app (df : DataFrame) (rs1 rs2 : list Row)
    (now : Timestamp) :
  exact_volumes (rs1 ++ rs2) ->
  _last_hour_volume_sum (with_rows df (rs1 ++ rs2)) now
  = fadd (_last_hour_volume_sum (with_rows df rs1) now)
         (_last_hour_volume_sum (with_rows df rs2) now).
Proof.
  intros _.
  rewrite !_last_hour_volume_sum_spec, !trailing_hour_volume_with_rows.
  cbn [fadd]. f_equal. apply contribution_sum_app.
Qed.

Lemma exact_volumes_minute_frame : exact_volumes (rows minute_frame).
Proof.
  split.
  - repeat (constructor; [eexists; split; [|reflexivity]; lia|]). constructor.
  - vm_compute. discriminate.
Qed.

Lemma last_hour_volume_sum_app_witness :
  exact_volumes (firstn 1 (rows minute_frame) ++ skipn 1 (rows minute_frame)) /\
  _last_hour_volume_sum
    (with_rows minute_frame
       (firstn 1 (rows minute_frame) ++ skipn 1 (rows minute_frame))) t0
  = fadd (_last_hour_volume_sum
            (with_rows minute_frame (firstn 1 (rows minute_frame))) t0)
         (_last_hour_volume_sum
            (with_rows minute_frame (skipn 1 (rows minute_frame))) t0).
Proof.
  split; [exact exact_volumes_minute_frame|].
  exact (last_hour_volume_sum_app minute_frame
           (firstn 1 (rows minute_frame)) (skipn 1 (rows minute_frame)) t0
           exact_volumes_minute_frame).
Defined.

(** X2.  With whole volumes that add up to no more than [2^53], the
    trailing-hour volume does not depend on the order of the samples. *)
Theorem last_hour_volume_sum_permutation (df : DataFrame) (rs rs' : list Row)
    (now : Timestamp) :
  exact_volumes rs ->
  Permutation rs rs' ->
  _last_hour_volume_sum (with_rows df rs) now
  = _last_hour_volume_sum (with_rows df rs') now.
Proof.
  intros _ P. rewrite !_last_hour_volume_sum_spec, !trailing_hour_volume_with_rows.
  f_equal. induction P as [| x l l' _ IH | x y l | l l' l'' _ IH1 _ IH2]; simpl.
  - reflexivity.
  - now rewrite IH.
  - ring.
  - now rewrite IH1.
Qed.

Lemma last_hour_volume_sum_permutation_witness :
  exact_volumes (rows minute_frame) /\
  Permutation (rows minute_frame) (rev (rows minute_frame)) /\
  _last_hour_volume_sum (with_rows minute_frame (rows minute_frame)) t0
  = _last_hour_volume_sum (with_rows minute_frame (rev (rows minute_frame))) t0.
Proof.
  assert (P : Permutation (rows minute_frame) (rev (rows minute_frame)))
    by apply Permutation_rev.
  split; [exact exact_volumes_minute_frame | split; [exact P|]].
  exact (last_hour_volume_sum_permutation minute_frame _ _ t0
           exact_volumes_minute_frame P).
Defined.

Lemma contribution_nonneg df now r :
  nonneg_volume r -> (0 <= contribution df now r)%Qc.
Proof.
  unfold nonneg_volume, contribution, volume_or_zero. intros H.
  destruct (in_last_hour_dec now r); [|apply Qcle_refl].
  destruct (has_column "Volume" df); [|apply Qcle_refl].
  destruct (Volume r); [apply Qcle_refl | exact H].
Qed.

(** X3.  With no negative volume among the samples the trailing-hour volume
    is a number, never the marker, and it is not negative. *)
Theorem last_hour_volume_sum_nonneg (df : DataFrame) (now : Timestamp) :
  Forall nonneg_volume (rows df) ->
  exists v, _last_hour_volume_sum df now = Num v /\ (0 <= v)%Qc.
Proof.
  intros H. rewrite _last_hour_volume_sum_spec. eexists. split; [reflexivity|].
  unfold trailing_hour_volume. induction H as [|r l Hr _ IH]; simpl.
  - apply Qcle_refl.
  - replace 0%Qc with (0 + 0)%Qc by ring.
    apply Qcplus_le_compat; [now apply contribution_nonneg | exact IH].
Qed.

Lemma last_hour_volume_sum_nonneg_witness :
  Forall nonneg_volume (rows minute_frame) /\
  exists v, _last_hour_volume_sum minute_frame t0 = Num v /\ (0 <= v)%Qc.
Proof.
  assert (H : Forall nonneg_volume (rows minute_frame)).
  { repeat constructor; discriminate. }
  split; [exact H | exact (last_hour_volume_sum_nonneg minute_frame t0 H)].
Defined.

(** ** Prices *)

Lemma last_valid_close_append df r c :
  last_valid_close df c -> Close r = NaN ->
  last_valid_close (append_row df r) c.
Proof.
  intros (C & pre & x & post & R & Cx & P) Cr. split; [exact C|].
  exists pre, x, (post ++ [r]). simpl. rewrite R, <- app_assoc. simpl.
  repeat split; auto. apply Forall_app. split; [exact P | now constructor].
Qed.

Lemma no_valid_close_append df r :
  no_valid_close df -> Close r = NaN -> no_valid_close (append_row df r).
Proof.
  intros [C | N] Cr; [now left | right].
  simpl. apply Forall_app. split; [exact N | now constructor].
Qed.

(** X4.  When one more sample arrives in a frame that carries closes, the
    latest price becomes the close of that sample if it has one, and stays
    what it was if the close is missing. *)
Theorem _latest_price_append (df : DataFrame) (r : Row) :
  has_column "Close" df = true ->
  _latest_price (append_row df r)
  = match Close r with Num c => Num c | NaN => _latest_price df end.
Proof.
  intros C. destruct (Close r) as [|c] eqn:Cr.
  - destruct (series_price_cases df) as [(c & L) | N].
    + rewrite (_latest_price_last_valid_close _ _ L).
      now apply _latest_price_last_valid_close, last_valid_close_append.
    + rewrite (_latest_price_no_valid_close _ N).
      now apply _latest_price_no_valid_close, no_valid_close_append.
  - apply _latest_price_last_valid_close. split; [exact C|].
    exists (rows df), r, []. repeat split; auto.
Qed.

Lemma _latest_price_append_witness :
  has_column "Close" hourly_frame = true /\
  _latest_price (append_row hourly_frame (mkRow t0 NaN NaN))
  = match Close (mkRow t0 NaN NaN) with
    | Num c => Num c
    | NaN => _latest_price hourly_frame
    end.
Proof.
  split; [reflexivity|].
  exact (_latest_price_append hourly_frame (mkRow t0 NaN NaN) eq_refl).
Defined.

(** ** Changes *)

(** The two samples a change is computed from are samples of the list. *)
Lemma pct_on_rows_samples hours x xs :
  exists rl rb,
    In rl (x :: xs) /\ In rb (x :: xs) /\
    pct_on_rows hours (x :: xs)
    = if feqb (Close rb) (F 0) || isna (Close rb) then NaN
      else fmul (fdiv (fsub (Close rl) (Close rb)) (Close rb)) (F 100).
Proof.
  unfold pct_on_rows.
  set (rl := last (x :: xs) x).
  set (cutoff := time rl - Timedelta_hours hours).
  exists rl.
  destruct (filter (fun r => time r <=? cutoff) (x :: xs)) as [|y ys] eqn:W.
  - exists x. split; [apply last_In | split; [now left | reflexivity]].
  - exists (last (y :: ys) y). split; [apply last_In | split; [|reflexivity]].
    assert (I : In (last (y :: ys) y)
                   (filter (fun r => time r <=? cutoff) (x :: xs))).
    { rewrite W. apply last_In. }
    apply filter_In in I. apply I.
Qed.

Lemma _pct_change_constant_exact (df : DataFrame) (hours : Z) (c : Qc) :
  has_column "Close" df = true ->
  (exists r, In r (rows df) /\ Close r = Num c) ->
  Forall (fun r => Close r = NaN \/ Close r = Num c) (rows df) ->
  c <> 0%Qc ->
  _pct_change_over_hours df hours = F 0.
Proof.
  intros C (r & Ir & Cr) Hall NZ. rewrite _pct_change_on_rows.
  assert (E : empty df = false).
  { unfold empty. rewrite (has_column_columns _ _ C), orb_false_r.
    destruct (rows df); [contradiction | reflexivity]. }
  rewrite E, C. cbn [orb negb].
  assert (Iv : In r (filter valid (rows df))).
  { apply filter_In. split; [exact Ir | apply valid_true; eauto]. }
  destruct (filter valid (rows df)) as [|x xs] eqn:Fv; [contradiction|].
  destruct (pct_on_rows_samples hours x xs) as (rl & rb & Il & Ib & ->).
  rewrite Forall_forall in Hall.
  assert (K : forall y, In y (x :: xs) -> Close y = Num c).
  { intros y Iy. rewrite <- Fv in Iy. apply filter_In in Iy.
    destruct Iy as (Iy & Vy). destruct (Hall _ Iy) as [Hn | Hc]; [|exact Hc].
    apply valid_false in Hn. congruence. }
  rewrite (K _ Il), (K _ Ib). cbn [feqb isna]. change (F 0) with (Num 0%Qc).
  cbn [feqb]. unfold Qc_eq_bool. destruct (Qc_eq_dec c 0) as [Z0|_]; [contradiction|].
  cbn [orb fsub fdiv fmul]. unfold F. f_equal. field. exact NZ.
Qed.

(** X5.  On a well-formed series whose valid closes all equal one non-zero
    price, a single valid sample included, the 24-hour change is computed
    without an exception and is zero, not unavailable. *)
Theorem _pct_change_constant (df : DataFrame) (c : Qc) :
  well_formed df ->
  has_column "Close" df = true ->
  (exists r, In r (rows df) /\ Close r = Num c) ->
  Forall (fun r => Close r = NaN \/ Close r = Num c) (rows df) ->
  c <> 0%Qc ->
  _pct_change_over_hours_run df 24 = Ok (F 0).
Proof.
  intros W C E Hall NZ. rewrite (_pct_change_over_hours_run_well_formed df W).
  f_equal. now apply (_pct_change_constant_exact df 24 c).
Qed.

Lemma well_formed_single_sample_frame : well_formed single_sample_frame.
Proof.
  split.
  - unfold increasing; simpl. repeat constructor.
  - constructor; [split; reflexivity | constructor].
Qed.

Lemma _pct_change_constant_witness :
  well_formed single_sample_frame /\
  has_column "Close" single_sample_frame = true /\
  (exists r, In r (rows single_sample_frame) /\
             Close r = Num (Q2Qc (inject_Z 2050))) /\
  Forall (fun r => Close r = NaN \/ Close r = Num (Q2Qc (inject_Z 2050)))
         (rows single_sample_frame) /\
  Q2Qc (inject_Z 2050) <> 0%Qc /\
  _pct_change_over_hours_run single_sample_frame 24 = Ok (F 0).
Proof.
  assert (C : has_column "Close" single_sample_frame = true) by reflexivity.
  assert (E : exists r, In r (rows single_sample_frame) /\
                        Close r = Num (Q2Qc (inject_Z 2050))).
  { eexists. split; [left; reflexivity | reflexivity]. }
  assert (A : Forall (fun r => Close r = NaN \/ Close r = Num (Q2Qc (inject_Z 2050)))
                (rows single_sample_frame)).
  { constructor; [now right | constructor]. }
  assert (NZ : Q2Qc (inject_Z 2050) <> 0%Qc) by discriminate.
  split; [exact well_formed_single_sample_frame|].
  split; [exact C | split; [exact E | split; [exact A | split; [exact NZ|]]]].
  exact (_pct_change_constant _ _ well_formed_single_sample_frame C E A NZ).
Defined.

Lemma Qcinv_pos (b : Qc) : (0 < b)%Qc -> (0 < / b)%Qc.
Proof.
  unfold Qclt. intros H. simpl. rewrite Qred_correct.
  now apply Qinv_lt_0_compat.
Qed.

Lemma Qcmult_pos (a b : Qc) : (0 < a)%Qc -> (0 < b)%Qc -> (0 < a * b)%Qc.
Proof.
  intros Ha Hb. replace 0%Qc with (0 * b)%Qc by ring.
  now apply Qcmult_lt_compat_r.
Qed.

Lemma _pct_change_above_minus_100_exact (df : DataFrame) (hours : Z) :
  Forall positive_close (rows df) ->
  _pct_change_over_hours df hours = NaN \/
  exists v, _pct_change_over_hours df hours = Num v /\ (- hundred < v)%Qc.
Proof.
  intros Hall. rewrite _pct_change_on_rows.
  destruct (empty df || negb (has_column "Close" df)); [now left|].
  destruct (filter valid (rows df)) as [|x xs] eqn:Fv; [now left|].
  destruct (pct_on_rows_samples hours x xs) as (rl & rb & Il & Ib & ->).
  rewrite Forall_forall in Hall.
  assert (K : forall y, In y (x :: xs) -> exists c, Close y = Num c /\ (0 < c)%Qc).
  { intros y Iy. rewrite <- Fv in Iy. apply filter_In in Iy.
    destruct Iy as (Iy & Vy). apply valid_true in Vy. destruct Vy as (c & Cy).
    exists c. split; [exact Cy|]. specialize (Hall _ Iy).
    unfold positive_close in Hall. now rewrite Cy in Hall. }
  destruct (K _ Il) as (l & -> & Pl). destruct (K _ Ib) as (b & -> & Pb).
  assert (NZ : b <> 0%Qc) by (intros ->; now apply (Qclt_not_eq _ _ Pb)).
  right. cbn [feqb isna]. change (F 0) with (Num 0%Qc). cbn [feqb].
  unfold Qc_eq_bool. destruct (Qc_eq_dec b 0) as [Z0|_]; [contradiction|].
  cbn [orb fsub fdiv fmul]. eexists. split; [reflexivity|].
  apply Qclt_minus_iff.
  replace ((l - b) / b * Q2Qc (inject_Z 100) + - - hundred)%Qc
    with (l * / b * hundred)%Qc by (unfold hundred; field; exact NZ).
  apply Qcmult_pos; [apply Qcmult_pos; [exact Pl | now apply Qcinv_pos] | reflexivity].
Qed.

(** X6.  On a well-formed series without a zero or negative close the
    24-hour change is computed without an exception and, when it is
    available, is not below -100 percent. *)
Theorem _pct_change_above_minus_100 (df : DataFrame) :
  well_formed df ->
  Forall positive_close (rows df) ->
  _pct_change_over_hours_run df 24 = Ok NaN \/
  exists v, _pct_change_over_hours_run df 24 = Ok (Num v) /\ (- hundred <= v)%Qc.
Proof.
  intros W Hall. rewrite (_pct_change_over_hours_run_well_formed df W).
  destruct (_pct_change_above_minus_100_exact df 24 Hall) as [-> | (v & -> & Hv)].
  - now left.
  - right. exists v. split; [reflexivity | now apply Qclt_le_weak].
Qed.

Lemma _pct_change_above_minus_100_witness :
  well_formed hourly_frame /\
  Forall positive_close (rows hourly_frame) /\
  (_pct_change_over_hours_run hourly_frame 24 = Ok NaN \/
   exists v, _pct_change_over_hours_run hourly_frame 24 = Ok (Num v) /\
             (- hundred <= v)%Qc).
Proof.
  assert (H : Forall positive_close (rows hourly_frame)).
  { repeat constructor. }
  split; [exact well_formed_hourly_frame|].
  split; [exact H|].
  exact (_pct_change_above_minus_100 hourly_frame well_formed_hourly_frame H).
Defined.

(** ** What the reductions read *)

Lemma _latest_price_on_rows df :
  _latest_price df
  = if empty df || negb (has_column "Close" df) then NaN
    else match filter valid (rows df) with
         | [] => NaN
         | x :: xs => Close (last (x :: xs) x)
         end.
Proof.
  unfold _latest_price.
  destruct (empty df || negb (has_column "Close" df)); [reflexivity|].
  rewrite closes_of_rows.
  destruct (filter valid (rows df)) as [|x xs]; [reflexivity|].
  simpl map. cbv beta iota.
  change (snd (last (map (fun r => (time r, Close r)) (x :: xs))
                    ((fun r => (time r, Close r)) x)) = Close (last (x :: xs) x)).
  now rewrite last_map.
Qed.

Section RowMaps.
Variable g : Row -> Row.
Variable d : Z.
Hypothesis g_time : forall r, time (g r) = time r + d.
Hypothesis g_close : forall r, Close (g r) = Close r.

Lemma filter_valid_map l :
  filter valid (map g l) = map g (filter valid l).
Proof.
  rewrite filter_map_swap. f_equal. apply filter_ext. intros r.
  unfold valid. now rewrite g_close.
Qed.

Lemma pct_on_rows_map hours v :
  pct_on_rows hours (map g v) = pct_on_rows hours v.
Proof.
  destruct v as [|x xs]; [reflexivity|].
  unfold pct_on_rows. simpl map. cbv beta iota zeta.
  change (g x :: map g xs) with (map g (x :: xs)).
  rewrite !(last_map g (x :: xs) x), !g_close, g_time.
  set (c := time (last (x :: xs) x) - Timedelta_hours hours).
  replace (time (last (x :: xs) x) + d - Timedelta_hours hours) with (c + d)
    by (unfold c; lia).
  assert (E : filter (fun r => time r <=? c + d) (map g (x :: xs))
              = map g (filter (fun r => time r <=? c) (x :: xs))).
  { rewrite filter_map_swap. f_equal. apply filter_ext. intros r.
    rewrite g_time. destruct (Z.leb_spec (time r) c), (Z.leb_spec (time r + d) (c + d));
      auto; lia. }
  rewrite E. destruct (filter (fun r => time r <=? c) (x :: xs)) as [|y ys].
  - reflexivity.
  - simpl map. cbv iota.
    change (g y :: map g ys) with (map g (y :: ys)).
    now rewrite (last_map g (y :: ys) y), g_close.
Qed.

Lemma empty_map_rows df :
  empty (with_rows df (map g (rows df))) = empty df.
Proof. unfold empty, with_rows; simpl. now rewrite length_map. Qed.

Lemma _pct_change_map df hours :
  _pct_change_over_hours (with_rows df (map g (rows df))) hours
  = _pct_change_over_hours df hours.
Proof.
  rewrite !_pct_change_on_rows, empty_map_rows.
  change (has_column "Close" (with_rows df (map g (rows df))))
    with (has_column "Close" df).
  destruct (empty df || negb (has_column "Close" df)); [reflexivity|].
  change (rows (with_rows df (map g (rows df)))) with (map g (rows df)).
  rewrite filter_valid_map. apply pct_on_rows_map.
Qed.

Lemma _latest_price_map df :
  _latest_price (with_rows df (map g (rows df))) = _latest_price df.
Proof.
  rewrite !_latest_price_on_rows, empty_map_rows.
  change (has_column "Close" (with_rows df (map g (rows df))))
    with (has_column "Close" df).
  destruct (empty df || negb (has_column "Close" df)); [reflexivity|].
  change (rows (with_rows df (map g (rows df)))) with (map g (rows df)).
  rewrite filter_valid_map.
  destruct (filter valid (rows df)) as [|x xs]; [reflexivity|].
  simpl map. cbv iota. change (g x :: map g xs) with (map g (x :: xs)).
  now rewrite (last_map g (x :: xs) x), g_close.
Qed.
End RowMaps.

Lemma trailing_hour_volume_map (g : Row -> Row) (d : Z) df now :
  (forall r, time (g r) = time r + d) ->
  (forall r, Volume (g r) = Volume r) ->
  trailing_hour_volume (with_rows df (map g (rows df))) (now + d)
  = trailing_hour_volume df now.
Proof.
  intros Gt Gv. rewrite trailing_hour_volume_with_rows. unfold trailing_hour_volume.
  induction (rows df) as [|r l IH]; simpl; [reflexivity|].
  rewrite IH. f_equal. unfold contribution, volume_or_zero, in_last_hour.
  rewrite Gv.
  destruct (in_last_hour_dec (now + d) (g r)) as [I|I],
           (in_last_hour_dec now r) as [J|J]; try reflexivity;
    unfold in_last_hour in *; rewrite Gt in I; exfalso; lia.
Qed.

(** X7.  The latest price and the change never read the volumes, and the
    trailing-hour volume never reads the closes: rewriting the other column
    in any way changes nothing. *)
Theorem reductions_read_their_column (df : DataFrame) (f : Row -> pyfloat) :
  _latest_price (set_volumes f df) = _latest_price df /\
  (forall hours,
      _pct_change_over_hours (set_volumes f df) hours
      = _pct_change_over_hours df hours) /\
  (forall now,
      _last_hour_volume_sum (set_closes f df) now = _last_hour_volume_sum df now).
Proof.
  split; [|split].
  - unfold set_volumes. apply _latest_price_map. intros r; reflexivity.
  - intros hours. unfold set_volumes.
    apply _pct_change_map with (d := 0); intros r; simpl; auto; lia.
  - intros now. rewrite !_last_hour_volume_sum_spec. f_equal.
    replace now with (now + 0) at 1 by lia.
    apply trailing_hour_volume_map; intros r; simpl; auto; lia.
Qed.

(** X8.  Only the distances in time matter.  When a well-formed frame is
    still well formed with every sample stamped [d] later, the latest price
    and the 24-hour change are what they were, and so is the trailing-hour
    volume once the reference instant moves by [d] too. *)
Theorem reductions_time_shift (df : DataFrame) (d : Z) :
  well_formed df ->
  well_formed (shift_time d df) ->
  _latest_price (shift_time d df) = _latest_price df /\
  _pct_change_over_hours_run (shift_time d df) 24
  = _pct_change_over_hours_run df 24 /\
  (forall now,
      reference_instant now -> reference_instant (now + d) ->
      _last_hour_volume_sum_run (shift_time d df) (now + d)
      = _last_hour_volume_sum_run df now).
Proof.
  intros W W'. split; [|split].
  - unfold shift_time. apply _latest_price_map. intros r; reflexivity.
  - rewrite !_pct_change_over_hours_run_well_formed by assumption. f_equal.
    unfold shift_time.
    apply _pct_change_map with (d := d); intros r; reflexivity.
  - intros now N N'.
    rewrite !_last_hour_volume_sum_run_in_range by assumption. f_equal.
    rewrite !_last_hour_volume_sum_spec. f_equal.
    apply trailing_hour_volume_map; intros r; reflexivity.
Qed.

Lemma well_formed_shift_hourly_frame : well_formed (shift_time 7 hourly_frame).
Proof.
  split.
  - unfold increasing; simpl.
    constructor; [constructor; constructor | constructor; [reflexivity | constructor]].
  - repeat (constructor; [split; reflexivity|]). constructor.
Qed.

Lemma reductions_time_shift_witness :
  well_formed hourly_frame /\
  well_formed (shift_time 7 hourly_frame) /\
  _pct_change_over_hours_run (shift_time 7 hourly_frame) 24
  = _pct_change_over_hours_run hourly_frame 24.
Proof.
  split; [exact well_formed_hourly_frame|].
  split; [exact well_formed_shift_hourly_frame|].
  exact (proj1 (proj2 (reductions_time_shift hourly_frame 7
                         well_formed_hourly_frame
                         well_formed_shift_hourly_frame))).
Defined.

(** * Further properties of the formatter *)

Lemma bind_Ok {A B : Type} (m : Outcome A) (k : A -> Outcome B) (b : B) :
  bind m k = Ok b -> exists a, m = Ok a /\ k a = Ok b.
Proof. destruct m as [a|e]; simpl; [eauto | discriminate]. Qed.

Lemma format_snapshot_by_fields py_repr s :
  format_snapshot py_repr s = format_by_fields py_repr s.
Proof.
  unfold format_snapshot, format_by_fields, field2, layout.
  destruct (getitem s "as_of_local"); cbn [bind]; [|reflexivity].
  destruct (getitem s "spot") as [sp|]; cbn [bind]; [|reflexivity].
  destruct (getitem sp "ticker"); cbn [bind]; [|reflexivity].
  destruct (getitem sp "price"); cbn [bind]; [|reflexivity].
  destruct (getitem sp "change_24h_pct") as [c1|]; cbn [bind]; [|reflexivity].
  destruct (pct c1); cbn [bind]; [|reflexivity].
  destruct (getitem s "etf") as [et|]; cbn [bind]; [|reflexivity].
  destruct (getitem et "ticker"); cbn [bind]; [|reflexivity].
  destruct (getitem et "price"); cbn [bind]; [|reflexivity].
  destruct (getitem et "change_24h_pct") as [c2|]; cbn [bind]; [|reflexivity].
  destruct (pct c2); cbn [bind]; [|reflexivity].
  destruct (getitem et "last_hour_volume"); cbn [bind]; [|reflexivity].
  destruct (getitem s "futures") as [fu|]; cbn [bind]; [|reflexivity].
  destruct (getitem fu "tickers") as [tk|]; cbn [bind]; [|reflexivity].
  destruct (py_iter tk); cbn [bind]; [|reflexivity].
  destruct (getitem fu "price_main"); cbn [bind]; [|reflexivity].
  destruct (getitem fu "change_24h_pct") as [c3|]; cbn [bind]; [|reflexivity].
  destruct (pct c3); cbn [bind]; [|reflexivity].
  destruct (getitem fu "last_hour_volume_sum"); cbn [bind]; [|reflexivity].
  destruct (getitem s "totals") as [tot|]; cbn [bind]; [|reflexivity].
  destruct (getitem tot "last_hour_volume_all"); cbn [bind]; reflexivity.
Qed.

Lemma pct_not_a_change v : not_a_change v -> exists e, pct v = Raise e.
Proof.
  destruct v as [|x|x|l|x]; simpl; try contradiction; intros _.
  - eexists; reflexivity.
  - destruct l as [|a [|b l]]; eexists; reflexivity.
  - eexists; reflexivity.
Qed.

Lemma py_iter_not_iterable v : ~ iterable v -> exists e, py_iter v = Raise e.
Proof.
  destruct v; simpl; intros H; try (now destruct H); eexists; reflexivity.
Qed.

(** What a returned text tells about the reads of the formatter. *)
Lemma format_by_fields_Ok py_repr s text :
  format_by_fields py_repr s = Ok text ->
  (exists v, getitem s "as_of_local" = Ok v) /\
  (forall a b, In (a, b) fields_read -> exists v, field2 s a b = Ok v) /\
  (forall a v, In a ["spot"; "etf"; "futures"]%string ->
               field2 s a "change_24h_pct" = Ok v -> exists t, pct v = Ok t) /\
  (forall v, field2 s "futures" "tickers" = Ok v -> exists l, py_iter v = Ok l).
Proof.
  unfold format_by_fields. intros H.
  apply bind_Ok in H; destruct H as (v0 & H0 & H).
  apply bind_Ok in H; destruct H as (v1 & H1 & H).
  apply bind_Ok in H; destruct H as (v2 & H2 & H).
  apply bind_Ok in H; destruct H as (v3 & H3 & H).
  apply bind_Ok in H; destruct H as (t3 & P3 & H).
  apply bind_Ok in H; destruct H as (v4 & H4 & H).
  apply bind_Ok in H; destruct H as (v5 & H5 & H).
  apply bind_Ok in H; destruct H as (v6 & H6 & H).
  apply bind_Ok in H; destruct H as (t6 & P6 & H).
  apply bind_Ok in H; destruct H as (v7 & H7 & H).
  apply bind_Ok in H; destruct H as (v8 & H8 & H).
  apply bind_Ok in H; destruct H as (l8 & I8 & H).
  apply bind_Ok in H; destruct H as (v9 & H9 & H).
  apply bind_Ok in H; destruct H as (v10 & H10 & H).
  apply bind_Ok in H; destruct H as (t10 & P10 & H).
  apply bind_Ok in H; destruct H as (v11 & H11 & H).
  apply bind_Ok in H; destruct H as (v12 & H12 & _).
  split; [eauto|]. split; [|split].
  - intros a b I. simpl in I.
    repeat (destruct I as [I|I]; [injection I as <- <-; eauto|]).
    contradiction.
  - intros a v I Hv. simpl in I.
    destruct I as [<-|[<-|[<-|[]]]].
    + rewrite H3 in Hv. injection Hv as <-. eauto.
    + rewrite H6 in Hv. injection Hv as <-. eauto.
    + rewrite H10 in Hv. injection Hv as <-. eauto.
  - intros v Hv. rewrite H8 in Hv. injection Hv as <-. eauto.
Qed.

(** X9.  [format_snapshot] raises on a value that lacks a key it reads,
    that carries a string, a list or a dict as one of the three changes, or
    whose futures tickers are [None] or a float. *)
Theorem format_snapshot_raises_on (py_repr : pyval -> string) (s : pyval) :
  unrenderable s ->
  exists e, format_snapshot py_repr s = Raise e.
Proof.
  intros U. rewrite format_snapshot_by_fields.
  destruct (format_by_fields py_repr s) as [text|e] eqn:E; [exfalso | eauto].
  destruct (format_by_fields_Ok _ _ _ E) as ((v0 & H0) & F & N & T).
  destruct U as [(e & H) | [(a & b & e & I & H) | [(a & v & I & H & C) | (v & H & C)]]].
  - congruence.
  - destruct (F a b I) as (v & Hv). congruence.
  - destruct (N a v I H) as (t & Ht).
    destruct (pct_not_a_change v C) as (e & He). congruence.
  - destruct (T v H) as (l & Hl).
    destruct (py_iter_not_iterable v C) as (e & He). congruence.
Qed.

Lemma format_snapshot_raises_on_witness :
  unrenderable (VDict [("as_of_local", VStr "now")]%string) /\
  exists e,
    format_snapshot repr_placeholder (VDict [("as_of_local", VStr "now")]%string)
    = Raise e.
Proof.
  assert (U : unrenderable (VDict [("as_of_local", VStr "now")]%string)).
  { right. left. exists "spot"%string, "ticker"%string, KeyError.
    split; [now left | reflexivity]. }
  split; [exact U | exact (format_snapshot_raises_on repr_placeholder _ U)].
Defined.

(** X10.  [format_snapshot] depends on a value through the fields it reads
    and on nothing else: two values that answer these reads alike, whatever
    else they carry, are rendered alike or refused alike. *)
Theorem format_snapshot_reads_fields (py_repr : pyval -> string) (s s' : pyval) :
  getitem s "as_of_local" = getitem s' "as_of_local" ->
  (forall a b, In (a, b) fields_read -> field2 s a b = field2 s' a b) ->
  format_snapshot py_repr s = format_snapshot py_repr s'.
Proof.
  intros A F. rewrite !format_snapshot_by_fields. unfold format_by_fields.
  rewrite A.
  rewrite (F "spot" "ticker")%string by (simpl; tauto).
  rewrite (F "spot" "price")%string by (simpl; tauto).
  rewrite (F "spot" "change_24h_pct")%string by (simpl; tauto).
  rewrite (F "etf" "ticker")%string by (simpl; tauto).
  rewrite (F "etf" "price")%string by (simpl; tauto).
  rewrite (F "etf" "change_24h_pct")%string by (simpl; tauto).
  rewrite (F "etf" "last_hour_volume")%string by (simpl; tauto).
  rewrite (F "futures" "tickers")%string by (simpl; tauto).
  rewrite (F "futures" "price_main")%string by (simpl; tauto).
  rewrite (F "futures" "change_24h_pct")%string by (simpl; tauto).
  rewrite (F "futures" "last_hour_volume_sum")%string by (simpl; tauto).
  rewrite (F "totals" "last_hour_volume_all")%string by (simpl; tauto).
  reflexivity.
Qed.

Lemma format_snapshot_reads_fields_witness :
  getitem sample_snapshot "as_of_local"
  = getitem sample_snapshot_extended "as_of_local" /\
  (forall a b, In (a, b) fields_read ->
               field2 sample_snapshot a b = field2 sample_snapshot_extended a b) /\
  format_snapshot repr_placeholder sample_snapshot
  = format_snapshot repr_placeholder sample_snapshot_extended.
Proof.
  assert (A : getitem sample_snapshot "as_of_local"
              = getitem sample_snapshot_extended "as_of_local") by reflexivity.
  assert (F : forall a b, In (a, b) fields_read ->
                field2 sample_snapshot a b = field2 sample_snapshot_extended a b).
  { intros a b I. simpl in I.
    repeat (destruct I as [I|I]; [injection I as <- <-; reflexivity|]).
    contradiction. }
  split; [exact A | split; [exact F|]].
  exact (format_snapshot_reads_fields repr_placeholder _ _ A F).
Defined.

(** ** Rendered numbers *)

Lemma string_forall_app P a b :
  string_forall P (a ++ b) = string_forall P a && string_forall P b.
Proof.
  induction a as [|c a IH]; simpl; [reflexivity|].
  now rewrite IH, andb_assoc.
Qed.

Lemma string_forall_impl (P Q : ascii -> bool) s :
  (forall c, P c = true -> Q c = true) ->
  string_forall P s = true -> string_forall Q s = true.
Proof.
  intros I. induction s as [|c s IH]; simpl; [reflexivity|].
  rewrite !andb_true_iff. intros (H1 & H2). split; auto.
Qed.

Lemma string_of_uint_digits d :
  string_forall is_digit (NilEmpty.string_of_uint d) = true.
Proof. induction d; simpl; auto. Qed.

Lemma digits_are_digits n : string_forall is_digit (digits n) = true.
Proof.
  unfold digits, NilZero.string_of_uint.
  destruct (N.to_uint (Z.to_N n)) eqn:E; try reflexivity;
    rewrite <- E; apply string_of_uint_digits.
Qed.

Lemma commas_cons c s :
  commas (String c s)
  = String c (if (0 <? String.length s)%nat && (String.length s mod 3 =? 0)%nat
              then String "," (commas s) else commas s).
Proof. reflexivity. Qed.

Lemma commas_money s :
  string_forall money_char s = true -> string_forall money_char (commas s) = true.
Proof.
  induction s as [|c s IH]; [reflexivity|].
  rewrite commas_cons. cbn [string_forall].
  rewrite andb_true_iff. intros (H1 & H2). rewrite H1. cbn [andb].
  destruct ((0 <? String.length s)%nat && (String.length s mod 3 =? 0)%nat).
  - cbn [string_forall]. now rewrite (IH H2).
  - now apply IH.
Qed.

Lemma is_digit_money c : is_digit c = true -> money_char c = true.
Proof. unfold money_char. now intros ->. Qed.

(** A rendered amount is made of digits, separators, the point and a sign. *)
Lemma format_f2_money plus grouping q :
  string_forall money_char (format_f2 plus grouping q) = true.
Proof.
  unfold format_f2.
  set (c := round_half_even (Qabs (this q) * inject_Z 100)).
  assert (D : forall n, string_forall money_char (digits n) = true).
  { intros n. eapply string_forall_impl;
      [apply is_digit_money | apply digits_are_digits]. }
  assert (S : string_forall money_char
                (if Qnum (this q) <? 0 then "-"%string
                 else if plus then "+"%string else EmptyString) = true).
  { destruct (Qnum (this q) <? 0); [reflexivity | now destruct plus]. }
  assert (I : string_forall money_char
                (if grouping then commas (digits (c / 100)) else digits (c / 100))
              = true).
  { destruct grouping; [apply commas_money|]; apply D. }
  assert (P : string_forall money_char
                (if c mod 100 <? 10 then "0"%string else EmptyString) = true).
  { now destruct (c mod 100 <? 10). }
  rewrite !string_forall_app, S, I, P, D. reflexivity.
Qed.

Lemma append_percent_not_placeholder s : (s ++ "%")%string <> "n/a"%string.
Proof.
  destruct s as [|a [|b [|c [|d s]]]]; simpl; discriminate.
Qed.

(** X11.  A price that is a float is never rendered as the placeholder
    [n/a], the marker [float("nan")] included, while [None], a string, a
    list and a dict are; a change that is a float is rendered [n/a] exactly
    when it is the marker, and [None] is rendered [n/a] too. *)
Theorem placeholder_values :
  (forall x, _fmt_money (VFloat x) <> "n/a"%string) /\
  (_fmt_money VNone = "n/a"%string /\
   (forall t, _fmt_money (VStr t) = "n/a"%string) /\
   (forall l, _fmt_money (VStrList l) = "n/a"%string) /\
   (forall d, _fmt_money (VDict d) = "n/a"%string)) /\
  (forall x, pct (VFloat x) = Ok "n/a"%string <-> x = NaN) /\
  pct VNone = Ok "n/a"%string.
Proof.
  split; [|split; [|split]].
  - intros [|q]; [discriminate|].
    change (_fmt_money (VFloat (Num q))) with (format_f2 false true q).
    intros H. pose proof (format_f2_money false true q) as M.
    rewrite H in M. discriminate.
  - repeat split.
  - intros [|q]; [split; reflexivity|].
    split; [|discriminate].
    change (pct (VFloat (Num q))) with (Ok (format_f2 true false q ++ "%")%string).
    intros H. injection H as H. now destruct (append_percent_not_placeholder _ H).
  - reflexivity.
Qed.

Lemma strip_commas_commas s : strip_commas (commas s) = strip_commas s.
Proof.
  induction s as [|c s IH]; [reflexivity|].
  rewrite commas_cons. cbn [strip_commas].
  destruct ((0 <? String.length s)%nat && (String.length s mod 3 =? 0)%nat);
    cbn [strip_commas]; [change (Ascii.eqb "," ",") with true; cbv iota|];
    now rewrite IH.
Qed.

Lemma strip_commas_digits s :
  string_forall is_digit s = true -> strip_commas s = s.
Proof.
  induction s as [|c s IH]; simpl; [reflexivity|].
  rewrite andb_true_iff. intros (D & H). rewrite (IH H).
  destruct (Ascii.eqb_spec c ","); [subst c; discriminate | reflexivity].
Qed.

(** Without its separators a rendered integer is the decimal numeral. *)
Lemma strip_commas_format_int n :
  strip_commas (format_int_commas n) = NilZero.string_of_int (Z.to_int n).
Proof.
  unfold format_int_commas.
  destruct n as [|p|p].
  - reflexivity.
  - change (Z.pos p <? 0) with false. cbv iota.
    change (EmptyString ++ commas (digits (Z.abs (Z.pos p))))%string
      with (commas (digits (Z.pos p))).
    rewrite strip_commas_commas, strip_commas_digits by apply digits_are_digits.
    reflexivity.
  - change (Z.neg p <? 0) with true. cbv iota.
    change ("-" ++ commas (digits (Z.abs (Z.neg p))))%string
      with (String "-" (commas (digits (Z.pos p)))).
    cbn [strip_commas]. change (Ascii.eqb "-" ",") with false. cbv iota.
    rewrite strip_commas_commas, strip_commas_digits by apply digits_are_digits.
    reflexivity.
Qed.

Lemma read_int_format_int n : read_int (format_int_commas n) = Some n.
Proof.
  unfold read_int. rewrite strip_commas_format_int, NilZero.isi.
  - simpl. f_equal. apply DecimalZ.of_to.
  - destruct n; simpl; try discriminate.
    intros H. injection H as H. now apply DecimalPos.Unsigned.to_uint_nonnil in H.
  - destruct n; simpl; try discriminate.
    intros H. injection H as H. now apply DecimalPos.Unsigned.to_uint_nonnil in H.
Qed.

(** X12.  The text of a volume reads back, separators removed, as the
    integer nearest to the value, ties going to the even one; whatever is not
    a finite number reads back as zero. *)
Theorem _fmt_int_read_back (x : pyval) :
  read_int (_fmt_int x)
  = Some (match x with
          | VFloat (Num q) => round_half_even (this q)
          | _ => 0
          end).
Proof.
  unfold _fmt_int.
  destruct x as [|[|q]|y|l|y]; simpl py_int_round; cbv iota; try reflexivity.
  apply read_int_format_int.
Qed.

(** * Further properties of the builder and of the handler *)

Lemma _safe_history_agree_except ns w w' n t p i :
  agree_except ns w w' -> ~ In n ns ->
  _safe_history w n t p i = _safe_history w' n t p i.
Proof. intros A N. unfold _safe_history. now rewrite (A n t p i N). Qed.

(** X13.  The builder fetches the minute frame of the primary contract
    twice.  The futures price reads the frame of line 110 and the volumes
    read the frames of line 105, so that new answers to the requests of
    line 105 leave the price and a new answer to the request of line 110
    leaves the volumes; and the three changes read hourly frames only. *)
Theorem snapshot_request_flow (w w' : World) (now : Timestamp) :
  (agree_except [5; 6]%nat w w' ->
   field2 (snapshot_at w' now) "futures" "price_main"
   = field2 (snapshot_at w now) "futures" "price_main") /\
  (agree_except [7]%nat w w' ->
   field2 (snapshot_at w' now) "futures" "last_hour_volume_sum"
   = field2 (snapshot_at w now) "futures" "last_hour_volume_sum" /\
   field2 (snapshot_at w' now) "totals" "last_hour_volume_all"
   = field2 (snapshot_at w now) "totals" "last_hour_volume_all") /\
  (agree_except [3; 4; 5; 6; 7]%nat w w' ->
   field2 (snapshot_at w' now) "spot" "change_24h_pct"
   = field2 (snapshot_at w now) "spot" "change_24h_pct" /\
   field2 (snapshot_at w' now) "etf" "change_24h_pct"
   = field2 (snapshot_at w now) "etf" "change_24h_pct" /\
   field2 (snapshot_at w' now) "futures" "change_24h_pct"
   = field2 (snapshot_at w now) "futures" "change_24h_pct").
Proof.
  unfold snapshot_at.
  destruct (snapshot_record_fields (_now_tz_text w) now (retrieve w))
    as (_ & Hsc & _ & Hec & _ & Hfp & Hfc & Hfv & Ht).
  destruct (snapshot_record_fields (_now_tz_text w') now (retrieve w'))
    as (_ & Hsc' & _ & Hec' & _ & Hfp' & Hfc' & Hfv' & Ht').
  rewrite Hsc, Hec, Hfp, Hfc, Hfv, Ht, Hsc', Hec', Hfp', Hfc', Hfv', Ht'.
  rewrite !retrieve_fut_1m_list.
  cbn [retrieve spot_1h etf_1h etf_1m fut_main_1m fut_main_1h hd TICKERS_futures].
  split; [|split]; intros A.
  - rewrite !(_safe_history_agree_except _ w w' _ _ _ _ A); [reflexivity | |];
      simpl; intros [H|[H|[]]]; discriminate.
  - rewrite !(_safe_history_agree_except _ w w' _ _ _ _ A); [now split | | |];
      simpl; intros [H|[]]; discriminate.
  - rewrite !(_safe_history_agree_except _ w w' _ _ _ _ A); [now repeat split | | |];
      simpl; intros [H|[H|[H|[H|[H|[]]]]]]; discriminate.
Qed.

(** X14.  Whatever the provider and the chat do, [gold_cmd] never sends the
    report.  On an update with a message it sends, after the typing action,
    one plain reply, the word [Ошибка] with the message of what was caught
    (the failure of the typing action, or else the unknown time zone, or
    else the [TypeError] of the clock read of the builder), and it returns
    exactly when that reply goes through; on an update without a message it
    calls nothing and lets the [AttributeError] out. *)
Theorem gold_cmd_replies_error (exn_text : exn -> string)
    (none_attribute_text : string) (py_repr : pyval -> string)
    (message : option Chat) (zone_known : bool) (w : World) :
  gold_cmd exn_text none_attribute_text py_repr message zone_known w
  = match message with
    | None => ([], Some NoneAttribute)
    | Some chat =>
        let reason :=
          match send_action chat "typing" with
          | Failed m => m
          | Delivered => exn_text (if zone_known then TypeError else KeyError)
          end in
        let text := ("Ошибка: " ++ reason)%string in
        ([SendAction "typing"; ReplyText text None],
         match reply_text chat text None with
         | Delivered => None
         | Failed m => Some (SdkError m)
         end)
    end.
Proof.
  unfold gold_cmd, gold_cmd_try.
  destruct message as [chat|]; [|reflexivity].
  destruct (send_action chat "typing"); [|reflexivity].
  destruct zone_known; reflexivity.
Qed.

(** ** Reading a rendered amount back *)

Lemma round_half_even_close (y : Q) :
  (Qabs (inject_Z (round_half_even y) - y) <= 1 # 2)%Q.
Proof.
  apply Qabs_Qle_condition.
  destruct y as [n d]. unfold round_half_even. cbn [Qnum Qden].
  pose proof (Z.div_mod n (Z.pos d) ltac:(lia)) as E.
  pose proof (Z.mod_pos_bound n (Z.pos d) ltac:(lia)) as B.
  set (fl := n / Z.pos d) in *. set (r := n mod Z.pos d) in *.
  assert (K : forall k : Z, (inject_Z k - (n # d) == (k * Z.pos d - n) # d)%Q).
  { intros k. unfold Qeq, Qminus, Qplus, Qopp, inject_Z. simpl. lia. }
  destruct (Z.compare_spec (2 * r) (Z.pos d)) as [C|C|C];
    [destruct (Z.even fl)| |]; rewrite K; unfold Qle; simpl; split; nia.
Qed.

Lemma strip_commas_app a b :
  strip_commas (a ++ b) = (strip_commas a ++ strip_commas b)%string.
Proof.
  induction a as [|c a IH]; simpl; [reflexivity|].
  destruct (Ascii.eqb c ","); simpl; now rewrite IH.
Qed.

Lemma is_digit_not_mark c :
  is_digit c = true ->
  Ascii.eqb c "-" = false /\ Ascii.eqb c "+" = false /\ Ascii.eqb c "." = false.
Proof.
  intros D. repeat split;
    match goal with |- Ascii.eqb c ?m = false =>
      destruct (Ascii.eqb_spec c m); [subst c; discriminate | reflexivity]
    end.
Qed.

Lemma digits_head n :
  exists c rest, digits n = String c rest /\ is_digit c = true.
Proof.
  pose proof (digits_are_digits n) as D.
  assert (NE : digits n <> EmptyString).
  { unfold digits, NilZero.string_of_uint.
    destruct (N.to_uint (Z.to_N n)); discriminate. }
  destruct (digits n) as [|c rest]; [contradiction|].
  simpl in D. apply andb_true_iff in D. exists c, rest. split; [reflexivity | apply D].
Qed.

Lemma split_at_point_digits d r :
  string_forall is_digit d = true ->
  split_at_point (d ++ String "." r) = Some (d, r).
Proof.
  induction d as [|c d IH]; simpl; [reflexivity|].
  rewrite andb_true_iff. intros (D & H).
  destruct (is_digit_not_mark c D) as (_ & _ & ->). now rewrite (IH H).
Qed.

Lemma read_digits_digits n : 0 <= n -> read_digits (digits n) = Some n.
Proof.
  intros H. unfold read_digits, digits. rewrite NilZero.usu.
  - simpl. rewrite DecimalN.Unsigned.of_to. f_equal. now apply Z2N.id.
  - destruct (Z.to_N n); simpl; [discriminate|].
    apply DecimalPos.Unsigned.to_uint_nonnil.
Qed.

Lemma two_digits_checked :
  forallb two_digits_check (map Z.of_nat (seq 0 100)) = true.
Proof. vm_compute. reflexivity. Qed.

Lemma two_digits_spec fp :
  0 <= fp < 100 ->
  read_digits (two_digits fp) = Some fp /\
  String.length (two_digits fp) = 2%nat /\
  string_forall is_digit (two_digits fp) = true.
Proof.
  intros B.
  assert (I : In fp (map Z.of_nat (seq 0 100))).
  { apply in_map_iff. exists (Z.to_nat fp). split; [lia|]. apply in_seq. lia. }
  pose proof (proj1 (forallb_forall _ _) two_digits_checked fp I) as C.
  unfold two_digits_check in C. rewrite !andb_true_iff in C.
  destruct C as ((R & L) & D). split; [|split; [now apply Nat.eqb_eq | exact D]].
  destruct (read_digits (two_digits fp)) as [n|]; [|discriminate].
  apply Z.eqb_eq in R. now subst.
Qed.

(** The text of a finite amount, separators removed. *)
Lemma strip_commas_format_f2 q :
  let c := round_half_even (Qabs (this q) * inject_Z 100) in
  strip_commas (format_f2 false true q)
  = String.append (if Qnum (this q) <? 0 then "-"%string else EmptyString)
      (String.append (digits (c / 100)) (String "." (two_digits (c mod 100)))).
Proof.
  cbv zeta. unfold format_f2, two_digits.
  set (c := round_half_even (Qabs (this q) * inject_Z 100)).
  cbv iota.
  rewrite !strip_commas_app, strip_commas_commas.
  rewrite !(strip_commas_digits (digits _)) by apply digits_are_digits.
  f_equal; [now destruct (Qnum (this q) <? 0)|].
  f_equal. change (strip_commas ".") with "."%string.
  change (String.append "." ?x) with (String "." x).
  now destruct (c mod 100 <? 10).
Qed.

(** X15.  The text of a finite price reads back, separators removed, as a
    number with two decimals that differs from the price by half a
    hundredth at most. *)
Theorem _fmt_money_read_back (q : Qc) :
  exists v,
    read_money (_fmt_money (VFloat (Num q))) = Some v /\
    (Qabs (v - this q) <= 1 # 200)%Q.
Proof.
  change (_fmt_money (VFloat (Num q))) with (format_f2 false true q).
  unfold read_money. rewrite strip_commas_format_f2. cbv zeta.
  set (c := round_half_even (Qabs (this q) * inject_Z 100)).
  pose proof (round_half_even_close (Qabs (this q) * inject_Z 100)) as R.
  fold c in R. apply Qabs_Qle_condition in R. destruct R as (R1 & R2).
  pose proof (Qabs_nonneg (this q)) as A0.
  change (inject_Z 100) with (100 # 1)%Q in R1, R2.
  assert (C0 : 0 <= c).
  { assert (Hc : (-(1 # 2) <= inject_Z c)%Q) by lra.
    unfold Qle in Hc. simpl in Hc. lia. }
  pose proof (Z.div_mod c 100 ltac:(lia)) as E.
  pose proof (Z.mod_pos_bound c 100 ltac:(lia)) as B.
  assert (I0 : 0 <= c / 100) by (apply Z.div_pos; lia).
  destruct (two_digits_spec (c mod 100) B) as (RF & LF & DF).
  destruct (digits_head (c / 100)) as (h & rest & Eh & Dh).
  destruct (is_digit_not_mark h Dh) as (Hm & Hp & _).
  assert (Ec : (inject_Z c == inject_Z (c / 100) * (100 # 1) + inject_Z (c mod 100))%Q).
  { rewrite E at 1. rewrite inject_Z_plus, inject_Z_mult.
    change (inject_Z 100) with (100 # 1)%Q. ring. }
  assert (V : (inject_Z (c / 100)
               + inject_Z (c mod 100)
                 / inject_Z (10 ^ Z.of_nat (String.length (two_digits (c mod 100))))
               == inject_Z c * (1 # 100))%Q).
  { rewrite LF. change (inject_Z (10 ^ Z.of_nat 2)) with (100 # 1)%Q.
    rewrite Ec. field. }
  destruct (Qnum (this q) <? 0) eqn:Sg.
  - change ("-" ++ ?x)%string with (String "-" x). cbv iota beta.
    change (Ascii.eqb "-" "-") with true. cbv iota. cbn [fst snd].
    rewrite split_at_point_digits by apply digits_are_digits.
    rewrite (read_digits_digits _ I0), RF. cbv iota beta.
    eexists. split; [reflexivity|].
    rewrite V. apply Qabs_Qle_condition.
    assert (N : (this q <= 0)%Q).
    { apply Z.ltb_lt in Sg. unfold Qle. simpl. lia. }
    rewrite (Qabs_neg _ N) in R1, R2. split; lra.
  - change (EmptyString ++ ?x)%string with x. rewrite Eh.
    change (String h rest ++ ?x)%string with (String h (rest ++ x)).
    cbv iota beta. rewrite Hm, Hp. cbn [fst snd].
    change (String h (rest ++ ?x))%string with (String h rest ++ x)%string.
    rewrite <- Eh.
    rewrite split_at_point_digits by apply digits_are_digits.
    rewrite (read_digits_digits _ I0), RF. cbv iota beta.
    eexists. split; [reflexivity|].
    rewrite V. apply Qabs_Qle_condition.
    assert (N : (0 <= this q)%Q).
    { apply Z.ltb_ge in Sg. unfold Qle. simpl. lia. }
    rewrite (Qabs_pos _ N) in R1, R2. split; lra.
Qed.

(** ** Price and change of one frame *)

Lemma pct_on_rows_base hours x xs :
  exists rb,
    In rb (x :: xs) /\
    pct_on_rows hours (x :: xs)
    = if feqb (Close rb) (F 0) || isna (Close rb) then NaN
      else fmul (fdiv (fsub (Close (last (x :: xs) x)) (Close rb)) (Close rb))
                (F 100).
Proof.
  unfold pct_on_rows.
  set (cutoff := time (last (x :: xs) x) - Timedelta_hours hours).
  destruct (filter (fun r => time r <=? cutoff) (x :: xs)) as [|y ys] eqn:W.
  - exists x. split; [now left | reflexivity].
  - exists (last (y :: ys) y). split; [|reflexivity].
    assert (I : In (last (y :: ys) y)
                   (filter (fun r => time r <=? cutoff) (x :: xs))).
    { rewrite W. apply last_In. }
    apply filter_In in I. apply I.
Qed.

(** X16.  A change is reported only for a frame that has a latest price, and
    it is the change of that price against a non-zero close [b] of the
    frame: change = (price - b) / b * 100. *)
Theorem _pct_change_uses_latest_price (df : DataFrame) (hours : Z) (v : Qc) :
  increasing df ->
  _pct_change_over_hours df hours = Num v ->
  exists p b r,
    _latest_price df = Num p /\
    In r (rows df) /\ Close r = Num b /\ b <> 0%Qc /\
    v = ((p - b) / b * hundred)%Qc.
Proof.
  intros _. rewrite _pct_change_on_rows, _latest_price_on_rows.
  destruct (empty df || negb (has_column "Close" df)); [discriminate|].
  destruct (filter valid (rows df)) as [|x xs] eqn:Fv; [discriminate|].
  destruct (pct_on_rows_base hours x xs) as (rb & Ib & ->).
  assert (K : forall y, In y (x :: xs) ->
                        In y (rows df) /\ exists c, Close y = Num c).
  { intros y Iy. rewrite <- Fv in Iy. apply filter_In in Iy.
    destruct Iy as (Iy & Vy). split; [exact Iy | now apply valid_true]. }
  destruct (K _ (last_In xs x x)) as (_ & p & Ep).
  destruct (K _ Ib) as (Ir & b & Eb).
  rewrite Ep, Eb. cbn [feqb isna]. change (F 0) with (Num 0%Qc). cbn [feqb].
  unfold Qc_eq_bool. destruct (Qc_eq_dec b 0) as [Z0|NZ]; [discriminate|].
  cbn [orb fsub fdiv fmul]. intros H. injection H as <-.
  exists p, b, rb. repeat split; auto.
Qed.

Lemma _pct_change_uses_latest_price_witness :
  increasing hourly_frame /\
  _pct_change_over_hours hourly_frame 24 = Num (Q2Qc (5 # 2)) /\
  exists p b r,
    _latest_price hourly_frame = Num p /\
    In r (rows hourly_frame) /\ Close r = Num b /\ b <> 0%Qc /\
    Q2Qc (5 # 2) = ((p - b) / b * hundred)%Qc.
Proof.
  split; [exact increasing_hourly_frame|]. split; [exact pct_scenario|].
  exact (_pct_change_uses_latest_price hourly_frame 24 _
           increasing_hourly_frame pct_scenario).
Defined.
